(** * deployml.keras.train.training: the [TrainingBase] orchestrator

    A shallow embedding of [TrainingBase.__init__], [TrainingBase.train],
    [TrainingBase.evaluate_outcome] and [TrainingBase.calculate]
    (src/deployml/keras/train/training.py).

    The methods mutate the attributes of [self] and may raise; an exception
    leaves every attribute assigned before it in place.  They are therefore
    written in a state-and-exception monad over the attributes of the object.
    The third-party calls (imblearn's SMOTE, sklearn's scalers and
    [classification_report], the wrapped Keras model) are the operations of a
    class [Libs]; every such call is appended to a call log, so that which
    library operation ran, and on what, is observable. *)

From Stdlib Require Import List String Bool Arith ZArith QArith Qround Lia.
From Stdlib Require Import Permutation.
Import ListNotations.

Local Open Scope string_scope.
Local Open Scope list_scope.

(** ** Python exceptions *)

(** An exception is identified by the name of its class. *)
Inductive exn : Type := PyExn (cls : string).

Definition AttributeError : exn := PyExn "AttributeError".
Definition KeyError : exn := PyExn "KeyError".
Definition TypeError : exn := PyExn "TypeError".
Definition ValueError : exn := PyExn "ValueError".
Definition IndexError : exn := PyExn "IndexError".

Definition exn_eqb (a b : exn) : bool :=
  match a, b with PyExn x, PyExn y => String.eqb x y end.

(** The outcome of running a statement: it returns a value or raises. *)
Inductive result (A : Type) : Type :=
| Ok (a : A)
| Raised (e : exn).
Arguments Ok {A} a.
Arguments Raised {A} e.

Definition is_ok {A : Type} (r : result A) : bool :=
  match r with Ok _ => true | Raised _ => false end.

(** ** Tabular data *)

Section Data.
Variable cell : Type.

(** A numpy array of two dimensions, row by row, and one of one dimension. *)
Definition ndarray : Type := list (list cell).
Definition vector : Type := list cell.

(** A pandas frame: the column labels and the rows, each with its index
    label. *)
Record DataFrame : Type := mkFrame {
  columns : list string;
  rows : list (Z * list cell)
}.

(** A pandas series: one named column with the index labels. *)
Record Series : Type := mkSeries {
  name : string;
  entries : list (Z * cell)
}.

(** What the attributes [X_train] and [X_test] hold: a frame after the
    split, an array after resampling or scaling. *)
Inductive features : Type :=
| Frame (df : DataFrame)
| Array (a : ndarray).

(** What [y_train] and [y_test] hold. *)
Inductive target : Type :=
| Ser (s : Series)
| Vec (v : vector).

Definition nrows (df : DataFrame) : nat := List.length (rows df).
Definition labels (df : DataFrame) : list Z := map fst (rows df).
Definition series_labels (s : Series) : list Z := map fst (entries s).

(** Keeps the entries of [xs] whose flag in [mask] is set. *)
Fixpoint mask_filter {A : Type} (mask : list bool) (xs : list A) : list A :=
  match mask, xs with
  | b :: mask', x :: xs' =>
      if b then x :: mask_filter mask' xs' else mask_filter mask' xs'
  | _, _ => []
  end.

Fixpoint index_of (c : string) (cols : list string) : option nat :=
  match cols with
  | [] => None
  | c' :: cols' =>
      if String.eqb c' c then Some 0%nat
      else option_map S (index_of c cols')
  end.

Definition has_column (c : string) (df : DataFrame) : bool :=
  existsb (String.eqb c) (columns df).

(** [df.drop(c, axis=1)]: a new frame without the columns labelled [c];
    [KeyError] when no column has that label.  [df] itself is not changed. *)
Definition pandas_drop (df : DataFrame) (c : string) : result DataFrame :=
  if has_column c df then
    let keep := map (fun c' => negb (String.eqb c' c)) (columns df) in
    Ok {| columns := mask_filter keep (columns df);
          rows := map (fun r => (fst r, mask_filter keep (snd r))) (rows df) |}
  else Raised KeyError.

(** [df[c]] for a label [c] that names one column: that column as a
    series; [KeyError] when absent.  (For a label that several columns
    carry pandas returns a frame of those columns; the statements about
    the target are made for a label that names exactly one column, see
    [names_one_column] below.) *)
Definition pandas_getitem (df : DataFrame) (c : string) : result Series :=
  match index_of c (columns df) with
  | Some i =>
      Ok {| name := c;
            entries := flat_map (fun r => match nth_error (snd r) i with
                                          | Some v => [(fst r, v)]
                                          | None => []
                                          end) (rows df) |}
  | None => Raised KeyError
  end.

(** Positional selection ([iloc]): the entries of [xs] at the positions
    [idx], in the order of [idx]. *)
Definition select {A : Type} (idx : list nat) (xs : list A) : list A :=
  flat_map (fun i => match nth_error xs i with
                     | Some x => [x]
                     | None => []
                     end) idx.

Definition take_rows (idx : list nat) (df : DataFrame) : DataFrame :=
  {| columns := columns df; rows := select idx (rows df) |}.

Definition take_entries (idx : list nat) (s : Series) : Series :=
  {| name := name s; entries := select idx (entries s) |}.

(** [np.array(x)]: the values, without column or index labels. *)
Definition frame_values (df : DataFrame) : ndarray := map snd (rows df).
Definition series_values (s : Series) : vector := map snd (entries s).

Definition np_array (x : features) : ndarray :=
  match x with
  | Frame df => frame_values df
  | Array a => a
  end.

Definition np_array1 (y : target) : vector :=
  match y with
  | Ser s => series_values s
  | Vec v => v
  end.

End Data.

Arguments mkFrame {cell} columns rows.
Arguments mkSeries {cell} name entries.
Arguments columns {cell} d.
Arguments rows {cell} d.
Arguments name {cell} s.
Arguments entries {cell} s.
Arguments Frame {cell} df.
Arguments Array {cell} a.
Arguments Ser {cell} s.
Arguments Vec {cell} v.
Arguments nrows {cell} df.
Arguments labels {cell} df.
Arguments series_labels {cell} s.
Arguments mask_filter {A} mask xs.
Arguments has_column {cell} c df.
Arguments pandas_drop {cell} df c.
Arguments pandas_getitem {cell} df c.
Arguments select {A} idx xs.
Arguments take_rows {cell} idx df.
Arguments take_entries {cell} idx s.
Arguments frame_values {cell} df.
Arguments series_values {cell} s.
Arguments np_array {cell} x.
Arguments np_array1 {cell} y.

(** ** The rows of a dataset, their features and their target *)

Section RowsOfTheDataset.
Context {cell : Type}.

(** Exactly one column of [D] carries the label [c]. *)
Definition names_one_column (c : string) (D : DataFrame cell) : bool :=
  Nat.eqb (List.length (filter (String.eqb c) (columns D))) 1.

(** Every row of [D] has one cell for each column, as the rows of a pandas
    frame have. *)
Definition rectangular (D : DataFrame cell) : bool :=
  forallb (fun r => Nat.eqb (List.length (snd r)) (List.length (columns D)))
          (rows D).

(** The features of the row [r] of [D]: the row, under its index label,
    without its cells in the columns labelled [c]. *)
Definition features_of (c : string) (D : DataFrame cell)
    (r : Z * list cell) : Z * list cell :=
  (fst r,
   mask_filter (map (fun c' => negb (String.eqb c' c)) (columns D)) (snd r)).

(** The entry [e] of a series is the target of the row [r] of [D]: it
    carries the index label of [r] and the cell of [r] in the column
    labelled [c]. *)
Definition target_of (c : string) (D : DataFrame cell)
    (r : Z * list cell) (e : Z * cell) : Prop :=
  fst e = fst r /\
  exists k, index_of c (columns D) = Some k /\
            nth_error (snd r) k = Some (snd e).

(** The value [v] is the cell of the row [r] of [D] in the column labelled
    [c]. *)
Definition target_value_of (c : string) (D : DataFrame cell)
    (r : Z * list cell) (v : cell) : Prop :=
  exists k, index_of c (columns D) = Some k /\ nth_error (snd r) k = Some v.

End RowsOfTheDataset.

(** ** The libraries the orchestrator calls *)

(** The operations of numpy, imblearn, sklearn and the wrapped Keras model
    that [TrainingBase] calls.  Their arguments are Python objects, so an
    attribute that still holds [None] is passed as [None]; each operation
    returns or raises.  [Model] is the wrapped model with its weights,
    [Scaler] a scaler object of sklearn (fitted or not), [History] what
    [model.fit] returns.  An instance stands for the libraries during one
    run: [SMOTE_fit_sample] and [model_fit] draw random numbers that the
    code does not seed, so two runs are two instances, which agree on the
    seeded and the arithmetic operations only (see
    [same_seeded_and_scaling]). *)
Class Libs (cell Model History Scaler : Type) : Type := {
  (** [np.random.RandomState(seed).permutation(n)], a shuffle of
      [0 .. n-1]. *)
  rng_permutation : Z -> nat -> list nat;
  rng_permutation_perm :
    forall seed n, Permutation (rng_permutation seed n) (seq 0 n);
  (** [SMOTE(ratio=r).fit_sample(X, y)]. *)
  SMOTE_fit_sample :
    Q -> option (features cell) -> option (target cell) ->
    result (ndarray cell * vector cell);
  (** [StandardScaler()] and [MinMaxScaler()], freshly constructed. *)
  StandardScaler : Scaler;
  MinMaxScaler : Scaler;
  (** [scaler.fit(X)]: the scaler with its fitted parameters. *)
  scaler_fit : Scaler -> option (features cell) -> result Scaler;
  (** [scaler.transform(X)]. *)
  scaler_transform : Scaler -> option (features cell) -> result (ndarray cell);
  (** [classification_report(y_true, y_pred)], a string. *)
  classification_report :
    option (target cell) -> option (ndarray cell) -> result string;
  (** [model.fit(X, y, validation_split, epochs, batch_size, verbose)]: the
      history (or the exception) and the model with its updated weights. *)
  model_fit :
    Model -> option (features cell) -> option (target cell) ->
    Q -> Z -> Z -> Z -> result History * Model;
  (** [model.predict(inputs)], [inputs] a list of arrays. *)
  model_predict : Model -> list (features cell) -> result (ndarray cell);
  (** [model.predict_classes(X)]. *)
  model_predict_classes :
    Model -> option (features cell) -> result (ndarray cell)
}.

(** ** The attributes of the orchestrator *)

Section Object.
Context {cell Model History Scaler : Type}.

(** The attributes that [train], [evaluate_outcome] and [calculate] read
    or assign, and the flag [trained].  ([auc], [cross_val],
    [outcome_metrics], [scaling_title], [support_vector], [best_epoch]
    and [best_model] are set by [__init__] and touched by none of the
    three methods.)  [None] is Python's [None]. *)
Record TrainingBase : Type := mkTrainingBase {
  model : Model;
  data : option (DataFrame cell);
  outcome_pointer : option string;
  X : option (DataFrame cell);
  scaled_inputs : bool;
  scaling_tool : option Scaler;
  y : option (Series cell);
  X_train : option (features cell);
  X_test : option (features cell);
  y_train : option (target cell);
  y_test : option (target cell);
  predictions : option (ndarray cell);
  trained : bool;
  history : option History;
  X_report : option (ndarray cell);
  y_report : option (vector cell);
  general_report : string;
  input_order : option (list string)
}.

(** [TrainingBase.__init__(self, selected_model)] (lines 14-46). *)
Definition init (selected_model : Model) : TrainingBase :=
  {| model := selected_model;
     data := None;
     outcome_pointer := None;
     X := None;
     scaled_inputs := false;
     scaling_tool := None;
     y := None;
     X_train := None;
     X_test := None;
     y_train := None;
     y_test := None;
     predictions := None;
     trained := false;
     history := None;
     X_report := None;
     y_report := None;
     general_report := "General Report not generated when model was trained";
     input_order := None |}.

(** Attribute assignment, [self.f = v]. *)
Definition set_model v (o : TrainingBase) : TrainingBase :=
  mkTrainingBase v (data o) (outcome_pointer o) (X o) (scaled_inputs o)
    (scaling_tool o) (y o) (X_train o) (X_test o) (y_train o) (y_test o)
    (predictions o) (trained o) (history o) (X_report o) (y_report o)
    (general_report o) (input_order o).
Definition set_data v (o : TrainingBase) : TrainingBase :=
  mkTrainingBase (model o) v (outcome_pointer o) (X o) (scaled_inputs o)
    (scaling_tool o) (y o) (X_train o) (X_test o) (y_train o) (y_test o)
    (predictions o) (trained o) (history o) (X_report o) (y_report o)
    (general_report o) (input_order o).
Definition set_outcome_pointer v (o : TrainingBase) : TrainingBase :=
  mkTrainingBase (model o) (data o) v (X o) (scaled_inputs o)
    (scaling_tool o) (y o) (X_train o) (X_test o) (y_train o) (y_test o)
    (predictions o) (trained o) (history o) (X_report o) (y_report o)
    (general_report o) (input_order o).
Definition set_X v (o : TrainingBase) : TrainingBase :=
  mkTrainingBase (model o) (data o) (outcome_pointer o) v (scaled_inputs o)
    (scaling_tool o) (y o) (X_train o) (X_test o) (y_train o) (y_test o)
    (predictions o) (trained o) (history o) (X_report o) (y_report o)
    (general_report o) (input_order o).
Definition set_scaled_inputs v (o : TrainingBase) : TrainingBase :=
  mkTrainingBase (model o) (data o) (outcome_pointer o) (X o) v
    (scaling_tool o) (y o) (X_train o) (X_test o) (y_train o) (y_test o)
    (predictions o) (trained o) (history o) (X_report o) (y_report o)
    (general_report o) (input_order o).
Definition set_scaling_tool v (o : TrainingBase) : TrainingBase :=
  mkTrainingBase (model o) (data o) (outcome_pointer o) (X o)
    (scaled_inputs o) v (y o) (X_train o) (X_test o) (y_train o) (y_test o)
    (predictions o) (trained o) (history o) (X_report o) (y_report o)
    (general_report o) (input_order o).
Definition set_y v (o : TrainingBase) : TrainingBase :=
  mkTrainingBase (model o) (data o) (outcome_pointer o) (X o)
    (scaled_inputs o) (scaling_tool o) v (X_train o) (X_test o) (y_train o)
    (y_test o) (predictions o) (trained o) (history o) (X_report o)
    (y_report o) (general_report o) (input_order o).
Definition set_X_train v (o : TrainingBase) : TrainingBase :=
  mkTrainingBase (model o) (data o) (outcome_pointer o) (X o)
    (scaled_inputs o) (scaling_tool o) (y o) v (X_test o) (y_train o)
    (y_test o) (predictions o) (trained o) (history o) (X_report o)
    (y_report o) (general_report o) (input_order o).
Definition set_X_test v (o : TrainingBase) : TrainingBase :=
  mkTrainingBase (model o) (data o) (outcome_pointer o) (X o)
    (scaled_inputs o) (scaling_tool o) (y o) (X_train o) v (y_train o)
    (y_test o) (predictions o) (trained o) (history o) (X_report o)
    (y_report o) (general_report o) (input_order o).
Definition set_y_train v (o : TrainingBase) : TrainingBase :=
  mkTrainingBase (model o) (data o) (outcome_pointer o) (X o)
    (scaled_inputs o) (scaling_tool o) (y o) (X_train o) (X_test o) v
    (y_test o) (predictions o) (trained o) (history o) (X_report o)
    (y_report o) (general_report o) (input_order o).
Definition set_y_test v (o : TrainingBase) : TrainingBase :=
  mkTrainingBase (model o) (data o) (outcome_pointer o) (X o)
    (scaled_inputs o) (scaling_tool o) (y o) (X_train o) (X_test o)
    (y_train o) v (predictions o) (trained o) (history o) (X_report o)
    (y_report o) (general_report o) (input_order o).
Definition set_predictions v (o : TrainingBase) : TrainingBase :=
  mkTrainingBase (model o) (data o) (outcome_pointer o) (X o)
    (scaled_inputs o) (scaling_tool o) (y o) (X_train o) (X_test o)
    (y_train o) (y_test o) v (trained o) (history o) (X_report o)
    (y_report o) (general_report o) (input_order o).
Definition set_history v (o : TrainingBase) : TrainingBase :=
  mkTrainingBase (model o) (data o) (outcome_pointer o) (X o)
    (scaled_inputs o) (scaling_tool o) (y o) (X_train o) (X_test o)
    (y_train o) (y_test o) (predictions o) (trained o) v (X_report o)
    (y_report o) (general_report o) (input_order o).
Definition set_X_report v (o : TrainingBase) : TrainingBase :=
  mkTrainingBase (model o) (data o) (outcome_pointer o) (X o)
    (scaled_inputs o) (scaling_tool o) (y o) (X_train o) (X_test o)
    (y_train o) (y_test o) (predictions o) (trained o) (history o) v
    (y_report o) (general_report o) (input_order o).
Definition set_y_report v (o : TrainingBase) : TrainingBase :=
  mkTrainingBase (model o) (data o) (outcome_pointer o) (X o)
    (scaled_inputs o) (scaling_tool o) (y o) (X_train o) (X_test o)
    (y_train o) (y_test o) (predictions o) (trained o) (history o)
    (X_report o) v (general_report o) (input_order o).
Definition set_general_report v (o : TrainingBase) : TrainingBase :=
  mkTrainingBase (model o) (data o) (outcome_pointer o) (X o)
    (scaled_inputs o) (scaling_tool o) (y o) (X_train o) (X_test o)
    (y_train o) (y_test o) (predictions o) (trained o) (history o)
    (X_report o) (y_report o) v (input_order o).
Definition set_input_order v (o : TrainingBase) : TrainingBase :=
  mkTrainingBase (model o) (data o) (outcome_pointer o) (X o)
    (scaled_inputs o) (scaling_tool o) (y o) (X_train o) (X_test o)
    (y_train o) (y_test o) (predictions o) (trained o) (history o)
    (X_report o) (y_report o) (general_report o) v.

(** A call into one of the opaque libraries, with its arguments. *)
Inductive Call : Type :=
| SMOTE_call (ratio : Q) (Xa : option (features cell))
    (ya : option (target cell))
| scaler_fit_call (s : Scaler) (Xa : option (features cell))
| scaler_transform_call (s : Scaler) (Xa : option (features cell))
| classification_report_call (y_true : option (target cell))
    (y_pred : option (ndarray cell))
| model_fit_call (m : Model) (Xa : option (features cell))
    (ya : option (target cell)) (validation_split : Q)
    (epochs batch_size verbose : Z)
| model_predict_call (m : Model) (inputs : list (features cell))
| model_predict_classes_call (m : Model) (Xa : option (features cell)).

(** What a method runs in: the object, the library calls made so far
    (oldest first) and what has been printed. *)
Record World : Type := mkWorld {
  self : TrainingBase;
  calls : list Call;
  stdout : list string
}.

Definition fresh_world (o : TrainingBase) : World :=
  {| self := o; calls := []; stdout := [] |}.

(** A statement: from the world before it to its outcome and the world
    after it.  A raised exception keeps the world it was raised in. *)
Definition M (A : Type) : Type := World -> result A * World.

Definition ret {A : Type} (a : A) : M A := fun w => (Ok a, w).

Definition bind {A B : Type} (m : M A) (k : A -> M B) : M B :=
  fun w => match m w with
           | (Ok a, w') => k a w'
           | (Raised e, w') => (Raised e, w')
           end.

Definition raise {A : Type} (e : exn) : M A := fun w => (Raised e, w).

(** Reading an attribute, [self.f]. *)
Definition attr {A : Type} (f : TrainingBase -> A) : M A :=
  fun w => (Ok (f (self w)), w).

(** Assigning an attribute. *)
Definition assign (upd : TrainingBase -> TrainingBase) : M unit :=
  fun w => (Ok tt, mkWorld (upd (self w)) (calls w) (stdout w)).

(** Looking up a method on an object that may be [None]:
    ['NoneType' object has no attribute ...]. *)
Definition method_of {A : Type} (o : option A) : M A :=
  match o with
  | Some a => ret a
  | None => raise AttributeError
  end.

(** Subscripting an object that may be [None]:
    ['NoneType' object is not subscriptable]. *)
Definition subscriptable {A : Type} (o : option A) : M A :=
  match o with
  | Some a => ret a
  | None => raise TypeError
  end.

(** A computation that returns or raises and touches nothing. *)
Definition lift {A : Type} (r : result A) : M A := fun w => (r, w).

(** A call into a library: logged, then its outcome. *)
Definition lib {A : Type} (c : Call) (r : result A) : M A :=
  fun w => (r, mkWorld (self w) (calls w ++ [c]) (stdout w)).

(** [print(s)]. *)
Definition print (s : string) : M unit :=
  fun w => (Ok tt, mkWorld (self w) (calls w) (stdout w ++ [s])).

End Object.

Arguments TrainingBase : clear implicits.
Arguments Call : clear implicits.
Arguments World : clear implicits.
Arguments M : clear implicits.

Declare Scope py_scope.
Delimit Scope py_scope with py.
Notation "x <- m ;; k" := (bind m (fun x => k))
  (at level 61, m at next level, right associativity) : py_scope.
Notation "m ;; k" := (bind m (fun _ => k))
  (at level 61, right associativity) : py_scope.

(** ** The methods *)

Section Methods.
Context {cell Model History Scaler : Type}.
Context {L : Libs cell Model History Scaler}.

Local Open Scope py_scope.

Local Abbreviation Stmt := (M cell Model History Scaler).

(** [df.drop(label, axis=1)] with the label read from an attribute: pandas
    refuses the label [None] with [ValueError]. *)
Definition drop_axis1 (df : DataFrame cell) (label : option string)
  : result (DataFrame cell) :=
  match label with
  | Some c => pandas_drop df c
  | None => Raised ValueError
  end.

(** [df[label]]. *)
Definition getitem (df : DataFrame cell) (label : option string)
  : result (Series cell) :=
  match label with
  | Some c => pandas_getitem df c
  | None => Raised KeyError
  end.

(** The number of test rows sklearn takes for a fractional [test_size]:
    [ceil(test_size * n_samples)]. *)
Definition n_test_of (test_size : Q) (n_samples : nat) : nat :=
  Z.to_nat (Qceiling (test_size * inject_Z (Z.of_nat n_samples))).

(** The row positions of the test part and of the train part: sklearn's
    [ShuffleSplit] draws one permutation of the positions from the seeded
    generator; its first [n_test] entries are the test rows, the
    following [n_train] the train rows. *)
Definition ind_test (test_size : Q) (random_state : Z) (n_samples : nat)
  : list nat :=
  firstn (n_test_of test_size n_samples)
         (rng_permutation random_state n_samples).

Definition ind_train (test_size : Q) (random_state : Z) (n_samples : nat)
  : list nat :=
  let n_test := n_test_of test_size n_samples in
  firstn (n_samples - n_test)
         (skipn n_test (rng_permutation random_state n_samples)).

(** [train_test_split(X, y, test_size=.., random_state=..)] of
    sklearn.model_selection, on a frame and a series: the four parts in
    the order [X_train, X_test, y_train, y_test].  An empty train part is
    refused with [ValueError] (releases before 0.21 return it empty); the
    arguments are refused with [TypeError] when they are [None]. *)
Definition train_test_split (Xa : option (DataFrame cell))
    (ya : option (Series cell)) (test_size : Q) (random_state : Z)
  : result (DataFrame cell * DataFrame cell * Series cell * Series cell) :=
  match Xa, ya with
  | Some Xf, Some ys =>
      let n_samples := nrows Xf in
      let n_test := n_test_of test_size n_samples in
      let n_train := (n_samples - n_test)%nat in
      if (n_train =? 0)%nat then Raised ValueError
      else
        let i_train := ind_train test_size random_state n_samples in
        let i_test := ind_test test_size random_state n_samples in
        Ok (take_rows i_train Xf, take_rows i_test Xf,
            take_entries i_train ys, take_entries i_test ys)
  | _, _ => Raised TypeError
  end.

(** [normalize()] (line 78): [sklearn.preprocessing.normalize] is a
    function whose first parameter [X] is required, so the call without
    arguments raises [TypeError] and yields no scaler. *)
Definition normalize_without_arguments : Stmt Scaler := raise TypeError.

(** [model.fit(...)] (line 85): logged; the model keeps the weights the
    call left it with, whether it returned or raised. *)
Definition keras_fit (m : Model) (Xa : option (features cell))
    (ya : option (target cell)) (validation_split : Q)
    (epochs batch_size verbose : Z) : Stmt History :=
  fun w =>
    let (r, m') :=
      model_fit m Xa ya validation_split epochs batch_size verbose in
    (r, mkWorld (set_model m' (self w))
          (calls w ++ [model_fit_call m Xa ya validation_split
                         epochs batch_size verbose])
          (stdout w)).

(** Lines 57-62 of [train]: features, target and the split. *)
Definition train_split : Stmt unit :=
  (* 57 *)
  d <- attr data ;;
  df <- method_of d ;;
  c <- attr outcome_pointer ;;
  Xf <- lift (drop_axis1 df c) ;;
  assign (set_X (Some Xf)) ;;
  (* 58 *)
  d <- attr data ;;
  df <- subscriptable d ;;
  c <- attr outcome_pointer ;;
  ys <- lift (getitem df c) ;;
  assign (set_y (Some ys)) ;;
  (* 59 *)
  Xa <- attr X ;;
  Xf <- method_of Xa ;;
  assign (set_input_order (Some (columns Xf))) ;;
  (* 60-62 *)
  Xa <- attr X ;;
  ya <- attr y ;;
  parts <- lift (train_test_split Xa ya (33 # 100) 101) ;;
  let '(Xtr, Xte, ytr, yte) := parts in
  assign (set_X_train (Some (Frame Xtr))) ;;
  assign (set_X_test (Some (Frame Xte))) ;;
  assign (set_y_train (Some (Ser ytr))) ;;
  assign (set_y_test (Some (Ser yte))).

(** Lines 64-69: the optional resampling and the report copies.
    ([np.array] of an attribute still [None] is written [None]; [train]
    has stored the test part before it gets here.) *)
Definition train_resample (resample : bool) (resample_ratio : Q)
  : Stmt unit :=
  (* 64-66 *)
  (if resample then
     Xa <- attr X_train ;;
     ya <- attr y_train ;;
     sampled <- lib (SMOTE_call resample_ratio Xa ya)
                    (SMOTE_fit_sample resample_ratio Xa ya) ;;
     assign (set_X_train (Some (Array (fst sampled)))) ;;
     assign (set_y_train (Some (Vec (snd sampled))))
   else ret tt) ;;
  (* 68-69 *)
  Xa <- attr X_test ;;
  assign (set_X_report (option_map np_array Xa)) ;;
  ya <- attr y_test ;;
  assign (set_y_report (option_map np_array1 ya)).

(** Lines 71-83: the optional scaling.  [fit] changes the scaler object
    that [self.scaling_tool] refers to, so the attribute holds the fitted
    scaler afterwards. *)
Definition train_scale (scale : bool) (scaling_tool_arg : string)
  : Stmt unit :=
  if scale then
    (* 72 *)
    assign (set_scaled_inputs true) ;;
    (* 73-78 *)
    (if String.eqb scaling_tool_arg "standard" then
       assign (set_scaling_tool (Some StandardScaler))
     else if String.eqb scaling_tool_arg "min max" then
       assign (set_scaling_tool (Some MinMaxScaler))
     else if String.eqb scaling_tool_arg "normalize" then
       s <- normalize_without_arguments ;;
       assign (set_scaling_tool (Some s))
     else ret tt) ;;
    (* 79 *)
    so <- attr scaling_tool ;;
    s <- method_of so ;;
    Xa <- attr X_train ;;
    s' <- lib (scaler_fit_call s Xa) (scaler_fit s Xa) ;;
    assign (set_scaling_tool (Some s')) ;;
    (* 80 *)
    so <- attr scaling_tool ;;
    s <- method_of so ;;
    Xa <- attr X_train ;;
    a <- lib (scaler_transform_call s Xa) (scaler_transform s Xa) ;;
    assign (set_X_train (Some (Array a))) ;;
    (* 81 *)
    so <- attr scaling_tool ;;
    s <- method_of so ;;
    Xa <- attr X_test ;;
    a <- lib (scaler_transform_call s Xa) (scaler_transform s Xa) ;;
    assign (set_X_test (Some (Array a)))
  else
    (* 83 *)
    assign (set_scaled_inputs false).

(** Lines 85-86: the fit of the wrapped model. *)
Definition train_fit (epochs batch_size verbose : Z) : Stmt unit :=
  m <- attr model ;;
  Xa <- attr X_train ;;
  ya <- attr y_train ;;
  h <- keras_fit m Xa ya (33 # 100) epochs batch_size verbose ;;
  assign (set_history (Some h)).

(** [TrainingBase.train] (lines 48-86).  The defaults of the source are
    [scale=False], [scaling_tool='standard'], [resample=False],
    [resample_ratio=1], [epochs=150], [batch_size=100], [verbose=0]. *)
Definition train (scale : bool) (scaling_tool_arg : string)
    (resample : bool) (resample_ratio : Q)
    (epochs batch_size verbose : Z) : Stmt unit :=
  train_split ;;
  train_resample resample resample_ratio ;;
  train_scale scale scaling_tool_arg ;;
  train_fit epochs batch_size verbose.

(** [TrainingBase.evaluate_outcome] (lines 133-142).  The docstring
    announces the list of predictions as the return value; the body has
    no [return], so the call evaluates to [None]. *)
Definition evaluate_outcome : Stmt (option (ndarray cell)) :=
  (* 139 *)
  m <- attr model ;;
  Xa <- attr X_test ;;
  p <- lib (model_predict_classes_call m Xa) (model_predict_classes m Xa) ;;
  assign (set_predictions (Some p)) ;;
  (* 141 *)
  ya <- attr y_test ;;
  pa <- attr predictions ;;
  r <- lib (classification_report_call ya pa) (classification_report ya pa) ;;
  assign (set_general_report r) ;;
  (* 142 *)
  g <- attr general_report ;;
  print g ;;
  ret None.

(** [a[0][0]] on the array [model.predict] returned. *)
Definition item_0_0 (a : ndarray cell) : Stmt cell :=
  match a with
  | (c :: _) :: _ => ret c
  | _ => raise IndexError
  end.

(** [TrainingBase.calculate] (lines 157-171). *)
Definition calculate (input_array : features cell)
    (happening override : bool) : Stmt cell :=
  (* 166-167 *)
  scaled <- attr scaled_inputs ;;
  input_array <-
    (if scaled && negb override then
       so <- attr scaling_tool ;;
       s <- method_of so ;;
       a <- lib (scaler_transform_call s (Some input_array))
                (scaler_transform s (Some input_array)) ;;
       ret (Array a)
     else ret input_array) ;;
  (* 168-171 *)
  if happening then
    m <- attr model ;;
    a <- lib (model_predict_call m [input_array])
             (model_predict m [input_array]) ;;
    item_0_0 a
  else
    m <- attr model ;;
    a <- lib (model_predict_call m [input_array])
             (model_predict m [input_array]) ;;
    item_0_0 a.

End Methods.

(** ** A small instance of the libraries

    Integer cells, a model that counts its fits and predicts the sum of a
    row plus that count, scalers that subtract the first cell they were
    fitted on, a resampler that checks its ratio and adds no rows.  It is
    what the examples below run on. *)

Module Toy.

Record scaler : Type := mkScaler {
  min_max : bool;
  offset : option Z
}.

Definition first_cell (a : ndarray Z) : Z :=
  match a with
  | (c :: _) :: _ => c
  | _ => 0%Z
  end.

Definition fit (s : scaler) (Xa : option (features Z)) : result scaler :=
  match Xa with
  | Some x => Ok (mkScaler (min_max s) (Some (first_cell (np_array x))))
  | None => Raised TypeError
  end.

Definition transform (s : scaler) (Xa : option (features Z))
  : result (ndarray Z) :=
  match offset s, Xa with
  | Some d, Some x => Ok (map (map (fun c => (c - d)%Z)) (np_array x))
  | None, _ => Raised (PyExn "NotFittedError")
  | _, None => Raised TypeError
  end.

Definition smote (ratio : Q) (Xa : option (features Z))
    (ya : option (target Z)) : result (ndarray Z * vector Z) :=
  if Qle_bool ratio 0 || negb (Qle_bool ratio 1) then Raised ValueError
  else match Xa, ya with
       | Some x, Some t => Ok (np_array x, np_array1 t)
       | _, _ => Raised TypeError
       end.

Definition report (y_true : option (target Z))
    (y_pred : option (ndarray Z)) : result string :=
  match y_true, y_pred with
  | Some _, Some _ => Ok "precision recall f1-score support"
  | _, _ => Raised TypeError
  end.

Definition sum_row (r : list Z) : Z := fold_right Z.add 0%Z r.

Definition fit_model (m : nat) (Xa : option (features Z))
    (ya : option (target Z)) (validation_split : Q)
    (epochs batch_size verbose : Z) : result (list Z) * nat :=
  match Xa, ya with
  | Some _, Some _ => (Ok (repeat 0%Z (Z.to_nat epochs)), S m)
  | _, _ => (Raised ValueError, m)
  end.

Definition predict (m : nat) (inputs : list (features Z))
  : result (ndarray Z) :=
  match inputs with
  | [x] => Ok (map (fun r => [(sum_row r + Z.of_nat m)%Z]) (np_array x))
  | _ => Raised ValueError
  end.

Definition predict_classes (m : nat) (Xa : option (features Z))
  : result (ndarray Z) :=
  match Xa with
  | Some x => Ok (map (fun r => [(sum_row r mod 2)%Z]) (np_array x))
  | None => Raised ValueError
  end.

#[global] Instance libs : Libs Z nat (list Z) scaler := {|
  rng_permutation := fun _ n => rev (seq 0 n);
  rng_permutation_perm :=
    fun _ n => Permutation_sym (Permutation_rev (seq 0 n));
  SMOTE_fit_sample := smote;
  StandardScaler := mkScaler false None;
  MinMaxScaler := mkScaler true None;
  scaler_fit := fit;
  scaler_transform := transform;
  classification_report := report;
  model_fit := fit_model;
  model_predict := predict;
  model_predict_classes := predict_classes
|}.




(** Four rows, two feature columns and the outcome column ["sick"]. *)
Definition patients : DataFrame Z :=
  {| columns := ["age"; "dose"; "sick"];
     rows := [(0, [30; 2; 0]); (1, [41; 5; 1]);
              (2, [52; 3; 0]); (3, [63; 8; 1])]%Z |}.

(** An orchestrator around a model that was never fitted, with the
    dataset bound. *)
Definition configured : World Z nat (list Z) scaler :=
  fresh_world (set_outcome_pointer (Some "sick")
                 (set_data (Some patients) (init 0%nat))).

(** A freshly constructed orchestrator. *)
Definition unconfigured : World Z nat (list Z) scaler :=
  fresh_world (init 0%nat).

(** The same bound dataset around a model that was fitted once before. *)
Definition configured_fitted_once : World Z nat (list Z) scaler :=
  fresh_world (set_outcome_pointer (Some "sick")
                 (set_data (Some patients) (init 1%nat))).

(** [configured] once lines 57-62 have run. *)
Definition split_done : World Z nat (list Z) scaler :=
  snd (train_split configured).

(** After [train(epochs=5, batch_size=32)]. *)
Definition trained_unscaled : World Z nat (list Z) scaler :=
  snd (train false "standard" false 1 5 32 0 configured).

(** After [train(scale=True, scaling_tool='standard', epochs=5,
    batch_size=32)]. *)
Definition trained_scaled : World Z nat (list Z) scaler :=
  snd (train true "standard" false 1 5 32 0 configured).


(** After [train(scale=True, scaling_tool='robust', ...)], which raised. *)
Definition failed_scaling : World Z nat (list Z) scaler :=
  snd (train true "robust" false 1 5 32 0 configured).


(** The dataset bound with an outcome column it does not have. *)
Definition misconfigured : World Z nat (list Z) scaler :=
  fresh_world (set_outcome_pointer (Some "dead")
                 (set_data (Some patients) (init 0%nat))).

(** [configured] once lines 57-69 have run, without resampling. *)
Definition split_reported : World Z nat (list Z) scaler :=
  snd (bind train_split (fun _ => train_resample false 1) configured).

(** A dataset of one row. *)
Definition one_patient : DataFrame Z :=
  {| columns := ["age"; "dose"; "sick"]; rows := [(0, [30; 2; 0])]%Z |}.

(** An orchestrator with the one-row dataset bound. *)
Definition configured_one_row : World Z nat (list Z) scaler :=
  fresh_world (set_outcome_pointer (Some "sick")
                 (set_data (Some one_patient) (init 0%nat))).

End Toy.


(** ** Observations on a run *)

Section Observations.
Context {cell Model History Scaler : Type}.

Local Abbreviation Obj := (TrainingBase cell Model History Scaler).
Local Abbreviation Wld := (World cell Model History Scaler).
Local Abbreviation Stmt := (M cell Model History Scaler).

(** The library calls made between the world [w] and a later world
    [w']. *)
Definition calls_since (w w' : Wld) : list (Call cell Model Scaler) :=
  skipn (List.length (calls w)) (calls w').

Definition is_transform_call (c : Call cell Model Scaler) : bool :=
  match c with scaler_transform_call _ _ => true | _ => false end.

Definition is_scaler_fit_call (c : Call cell Model Scaler) : bool :=
  match c with scaler_fit_call _ _ => true | _ => false end.

Definition is_model_fit_call (c : Call cell Model Scaler) : bool :=
  match c with model_fit_call _ _ _ _ _ _ _ => true | _ => false end.

Definition is_some {A : Type} (o : option A) : bool :=
  match o with Some _ => true | None => false end.

(** The statement [m] leaves the observation [f] of the object as it
    was, whether it returns or raises. *)
Definition preserves {A B : Type} (f : Obj -> A) (m : Stmt B) : Prop :=
  forall w, f (self (snd (m w))) = f (self w).

(** The statement [m] only adds to the call log and to the output. *)
Definition extends_log {B : Type} (m : Stmt B) : Prop :=
  forall w, exists cs, calls (snd (m w)) = calls w ++ cs.


End Observations.

(** ** The object after the split *)

Section AfterSplit.
Context {cell Model History Scaler : Type}.
Context {L : Libs cell Model History Scaler}.

(** The attributes of the object once lines 57-62 have run without
    raising, [Xf] being the features and [ys] the target of the bound
    dataset. *)
Definition with_split (Xf : DataFrame cell) (ys : Series cell)
    (o : TrainingBase cell Model History Scaler)
  : TrainingBase cell Model History Scaler :=
  let i_train := ind_train (33 # 100) 101 (nrows Xf) in
  let i_test := ind_test (33 # 100) 101 (nrows Xf) in
  set_y_test (Some (Ser (take_entries i_test ys)))
    (set_y_train (Some (Ser (take_entries i_train ys)))
       (set_X_test (Some (Frame (take_rows i_test Xf)))
          (set_X_train (Some (Frame (take_rows i_train Xf)))
             (set_input_order (Some (columns Xf))
                (set_y (Some ys) (set_X (Some Xf) o)))))).

End AfterSplit.

(** ** The two plotting methods *)

(** The operations [show_learning_curve] and [show_roc_curve] call besides
    pyplot: the per-epoch curves of a Keras history, the flattened
    prediction of the model, sklearn's [roc_curve] and [auc], and the
    formatting of the area into the legend label. *)
Class RenderLibs (cell Model History : Type) : Type := {
  (** [history.history[key]]; [KeyError] when the history has no such
      curve. *)
  history_item : History -> string -> result (vector cell);
  (** [model.predict(X).ravel()]. *)
  model_predict_ravel : Model -> option (features cell) -> result (vector cell);
  (** [roc_curve(y_true, y_score)]: [fpr], [tpr] and the thresholds. *)
  roc_curve :
    option (target cell) -> vector cell ->
    result (vector cell * vector cell * vector cell);
  (** [auc(fpr, tpr)]. *)
  auc : vector cell -> vector cell -> result cell;
  (** ['Keras (area = {:.3f})'.format(a)]. *)
  format_area : cell -> string
}.

Section Plotting.
Context {cell Model History Scaler : Type}.
Context {R : RenderLibs cell Model History}.

(** A call into [matplotlib.pyplot], with the arguments the two methods
    give. *)
Inductive PlotCmd : Type :=
| plt_figure_figsize (width height : Z)
| plt_figure_num (num : Z)
| plt_plot_curve (ys : vector cell) (fmt : string) (linewidth : Z)
    (label : string)
| plt_plot_points (xs ys : list Z) (fmt : string)
| plt_plot_xy (xs ys : vector cell) (label : string)
| plt_xlabel (s : string)
| plt_ylabel (s : string)
| plt_title (s : string)
| plt_legend (loc : string)
| plt_savefig (fname : string)
| plt_show.

(** A plotting statement: its outcome and the pyplot calls it made, in
    order.  (Neither method assigns an attribute of the orchestrator.) *)
Definition Plot (A : Type) : Type := (result A * list PlotCmd)%type.

Definition plot_ret {A : Type} (a : A) : Plot A := (Ok a, []).

Definition plot_bind {A B : Type} (m : Plot A) (k : A -> Plot B) : Plot B :=
  match m with
  | (Ok a, cmds) => let (r, cmds') := k a in (r, cmds ++ cmds')
  | (Raised e, cmds) => (Raised e, cmds)
  end.

(** A pyplot call. *)
Definition plt (c : PlotCmd) : Plot unit := (Ok tt, [c]).

(** A computation that returns or raises and draws nothing. *)
Definition plot_lift {A : Type} (r : result A) : Plot A := (r, []).

(** The pyplot calls with an effect outside the figure: writing the image
    file and showing the window. *)
Definition is_output_cmd (c : PlotCmd) : bool :=
  match c with
  | plt_savefig _ | plt_show => true
  | _ => false
  end.

(** [self.history.history]: an attribute of [None] before any fit. *)
Definition history_dict (h : option History) : Plot History :=
  match h with
  | Some hist => plot_ret hist
  | None => (Raised AttributeError, [])
  end.

End Plotting.

Arguments PlotCmd : clear implicits.
Arguments Plot : clear implicits.

Declare Scope plot_scope.
Delimit Scope plot_scope with plot.
Notation "x <- m ;; k" := (plot_bind m (fun x => k))
  (at level 61, m at next level, right associativity) : plot_scope.
Notation "m ;; k" := (plot_bind m (fun _ => k))
  (at level 61, right associativity) : plot_scope.

Section PlottingMethods.
Context {cell Model History Scaler : Type}.
Context {R : RenderLibs cell Model History}.

Local Open Scope plot_scope.

(** [TrainingBase.show_learning_curve] (lines 88-108).  [model_title] is
    the attribute [self.model_title], which the base class
    [DeploymentBase] provides. *)
Definition show_learning_curve (save : bool) (metric : string)
    (model_title : string) (o : TrainingBase cell Model History Scaler)
  : Plot cell unit :=
  (* 93 *)
  plt (plt_figure_figsize 15 7) ;;
  (* 94-100 *)
  (if String.eqb metric "loss" then
     hist <- history_dict (history o) ;;
     ys <- plot_lift (history_item hist "loss") ;;
     plt (plt_plot_curve ys "r-+" 2 "train") ;;
     hist <- history_dict (history o) ;;
     ys <- plot_lift (history_item hist "val_loss") ;;
     plt (plt_plot_curve ys "b-" 3 "val")
   else if String.eqb metric "accuracy" then
     hist <- history_dict (history o) ;;
     ys <- plot_lift (history_item hist "acc") ;;
     plt (plt_plot_curve ys "r-+" 2 "train") ;;
     hist <- history_dict (history o) ;;
     ys <- plot_lift (history_item hist "val_acc") ;;
     plt (plt_plot_curve ys "b-" 3 "val")
   else plot_ret tt) ;;
  (* 102-105 *)
  plt (plt_xlabel "Iterations") ;;
  plt (plt_ylabel "Error") ;;
  plt (plt_title ("Learning Curve for " ++ model_title)) ;;
  plt (plt_legend "upper right") ;;
  (* 106-108 *)
  (if save then plt (plt_savefig "learning_curve") else plot_ret tt) ;;
  plt plt_show.

(** [TrainingBase.show_roc_curve] (lines 110-131).  The docstring
    announces [self.auc] as the return value; the body has no [return]
    and assigns no attribute, so the call evaluates to [None]. *)
Definition show_roc_curve (save : bool)
    (o : TrainingBase cell Model History Scaler)
  : Plot cell (option cell) :=
  (* 116-118 *)
  y_pred_keras <- plot_lift (model_predict_ravel (model o) (X_test o)) ;;
  curve <- plot_lift (roc_curve (y_test o) y_pred_keras) ;;
  let '(fpr_keras, tpr_keras, _) := curve in
  auc_keras <- plot_lift (auc fpr_keras tpr_keras) ;;
  (* 120-127 *)
  plt (plt_figure_num 1) ;;
  plt (plt_plot_points [0; 1]%Z [0; 1]%Z "k--") ;;
  plt (plt_plot_xy fpr_keras tpr_keras (format_area auc_keras)) ;;
  plt (plt_xlabel "False positive rate") ;;
  plt (plt_ylabel "True positive rate") ;;
  plt (plt_title "ROC curve") ;;
  plt (plt_legend "best") ;;
  plt plt_show ;;
  (* 129-131 *)
  (if save then plt (plt_savefig "ROC") else plot_ret tt) ;;
  plt plt_show ;;
  plot_ret None.

End PlottingMethods.

(** The small instance, for the plotting methods: a history holds the
    loss curve only (under both loss keys), the flattened prediction is the
    sum of each row, and the curve and its area are fixed. *)
Module ToyRender.

Definition curve_of (h : list Z) (key : string) : result (vector Z) :=
  if String.eqb key "loss" || String.eqb key "val_loss" then Ok h
  else Raised KeyError.

Definition predict_ravel (m : nat) (Xa : option (features Z))
  : result (vector Z) :=
  match Xa with
  | Some x => Ok (map Toy.sum_row (np_array x))
  | None => Raised ValueError
  end.

Definition roc (y_true : option (target Z)) (y_score : vector Z)
  : result (vector Z * vector Z * vector Z) :=
  match y_true with
  | Some _ => Ok ([0; 1], [0; 1], [1; 0])%Z
  | None => Raised TypeError
  end.

#[global] Instance libs : RenderLibs Z nat (list Z) := {|
  history_item := curve_of;
  model_predict_ravel := predict_ravel;
  roc_curve := roc;
  auc := fun _ _ => Ok 1%Z;
  format_area := fun _ => "Keras (area = 1.000)"
|}.

End ToyRender.

(** * Properties *)

(** ** The monad: preservation of an observation, step by step *)

Section Preservation.
Context {cell Model History Scaler : Type}.

Local Abbreviation Obj := (TrainingBase cell Model History Scaler).
Local Abbreviation Stmt := (M cell Model History Scaler).

Variables (A : Type) (f : Obj -> A).

Lemma preserves_ret (B : Type) (b : B) : preserves f (ret b : Stmt B).
Proof. intro w. reflexivity. Qed.

Lemma preserves_raise (B : Type) (e : exn) : preserves f (raise e : Stmt B).
Proof. intro w. reflexivity. Qed.

Lemma preserves_attr (B : Type) (g : Obj -> B) : preserves f (attr g).
Proof. intro w. reflexivity. Qed.

Lemma preserves_lift (B : Type) (r : result B) : preserves f (lift r : Stmt B).
Proof. intro w. reflexivity. Qed.

Lemma preserves_lib (B : Type) c (r : result B) :
  preserves f (lib c r : Stmt B).
Proof. intro w. reflexivity. Qed.

Lemma preserves_print s : preserves f (print s : Stmt unit).
Proof. intro w. reflexivity. Qed.

Lemma preserves_method_of (B : Type) (o : option B) :
  preserves f (method_of o : Stmt B).
Proof. intro w. destruct o; reflexivity. Qed.

Lemma preserves_subscriptable (B : Type) (o : option B) :
  preserves f (subscriptable o : Stmt B).
Proof. intro w. destruct o; reflexivity. Qed.

Lemma preserves_assign (upd : Obj -> Obj) :
  (forall o, f (upd o) = f o) -> preserves f (assign upd).
Proof. intros H w. simpl. apply H. Qed.

Lemma preserves_bind (B C : Type) (m : Stmt B) (k : B -> Stmt C) :
  preserves f m -> (forall b, preserves f (k b)) -> preserves f (bind m k).
Proof.
  intros Hm Hk w. unfold bind.
  specialize (Hm w). destruct (m w) as [[b | e] w1]; simpl in *.
  - rewrite Hk. exact Hm.
  - exact Hm.
Qed.

Lemma preserves_if (B : Type) (c : bool) (m1 m2 : Stmt B) :
  preserves f m1 -> preserves f m2 -> preserves f (if c then m1 else m2).
Proof. destruct c; auto. Qed.

(** What follows a statement does not undo what the statement left, when
    it preserves the observation. *)
Lemma preserves_after (B C : Type) (m : Stmt B) (k : B -> Stmt C) w :
  (forall b, preserves f (k b)) ->
  f (self (snd (bind m k w))) = f (self (snd (m w))).
Proof.
  intros Hk. unfold bind. destruct (m w) as [[b | e] w1]; simpl.
  - apply Hk.
  - reflexivity.
Qed.

End Preservation.

Create HintDb frame.

#[local] Hint Resolve preserves_ret preserves_raise preserves_attr
  preserves_lift preserves_lib preserves_print preserves_method_of
  preserves_subscriptable preserves_if : frame.

(** Splits a statement into its steps and closes each one; an assignment
    is closed when it is to another attribute than the observed one. *)
Ltac frame_steps :=
  repeat first
    [ apply preserves_bind; [ | intro ]
    | apply preserves_if
    | apply preserves_assign; intro; reflexivity
    | solve [ auto with frame ]
    | match goal with
      | |- preserves _ (let '(_, _) := ?p in _) => destruct p
      end ].

Section FrameOfTrain.
Context {cell Model History Scaler : Type}.
Context {L : Libs cell Model History Scaler}.

Local Abbreviation Obj := (TrainingBase cell Model History Scaler).

Lemma keras_fit_preserves (A : Type) (f : Obj -> A) m Xa ya vs ep bs vb :
  (forall v o, f (set_model v o) = f o) ->
  preserves f (keras_fit m Xa ya vs ep bs vb).
Proof.
  intros H w. unfold keras_fit.
  destruct (model_fit m Xa ya vs ep bs vb) as [r m']. simpl. apply H.
Qed.

Lemma train_preserves_data scale tool resample ratio ep bs vb :
  preserves data
    (train (L := L) scale tool resample ratio ep bs vb).
Proof.
  unfold train, train_split, train_resample, train_scale, train_fit,
    normalize_without_arguments.
  frame_steps; apply keras_fit_preserves; reflexivity.
Qed.

Lemma train_preserves_outcome_pointer scale tool resample ratio ep bs vb :
  preserves outcome_pointer
    (train (L := L) scale tool resample ratio ep bs vb).
Proof.
  unfold train, train_split, train_resample, train_scale, train_fit,
    normalize_without_arguments.
  frame_steps; apply keras_fit_preserves; reflexivity.
Qed.

End FrameOfTrain.

(** ** The split *)

Section SplitArithmetic.

(** [ceil(0.33 * n)] test rows: the test part is 33% of the rows, rounded
    up. *)
Lemma n_test_of_bounds (n : nat) :
  (0 <= 100 * Z.of_nat (n_test_of (33 # 100) n) - 33 * Z.of_nat n < 100)%Z.
Proof.
  unfold n_test_of, Qceiling, Qfloor, Qopp, Qmult, inject_Z.
  cbn [Qnum Qden].
  replace (Z.pos (100 * 1)) with 100%Z by reflexivity.
  set (z := Z.of_nat n).
  assert (Hz : (0 <= z)%Z) by (subst z; lia).
  assert (Hq : (0 <= - (- (33 * z) / 100))%Z).
  { pose proof (Z.div_mod (- (33 * z)) 100 ltac:(lia)) as E.
    pose proof (Z.mod_pos_bound (- (33 * z)) 100 ltac:(lia)) as B. lia. }
  rewrite Z2Nat.id by exact Hq.
  pose proof (Z.div_mod (- (33 * z)) 100 ltac:(lia)) as E.
  pose proof (Z.mod_pos_bound (- (33 * z)) 100 ltac:(lia)) as B.
  lia.
Qed.

Lemma n_test_of_le (n : nat) : (n_test_of (33 # 100) n <= n)%nat.
Proof. pose proof (n_test_of_bounds n). lia. Qed.

(** With two rows or more the train part is not empty. *)
Lemma n_train_positive (n : nat) :
  (2 <= n)%nat -> (n - n_test_of (33 # 100) n <> 0)%nat.
Proof. intro H. pose proof (n_test_of_bounds n). lia. Qed.

End SplitArithmetic.

Section Selection.
Context {A : Type}.

Lemma select_app (i j : list nat) (xs : list A) :
  select (i ++ j) xs = select i xs ++ select j xs.
Proof. unfold select. apply flat_map_app. Qed.

Lemma select_Permutation (i j : list nat) (xs : list A) :
  Permutation i j -> Permutation (select i xs) (select j xs).
Proof. unfold select. apply Permutation_flat_map. Qed.

Lemma select_seq_shift (pre xs : list A) :
  select (seq (List.length pre) (List.length xs)) (pre ++ xs) = xs.
Proof.
  revert pre. induction xs as [| x xs IH]; intro pre; simpl.
  - reflexivity.
  - rewrite nth_error_app2 by lia. rewrite Nat.sub_diag. simpl.
    f_equal.
    specialize (IH (pre ++ [x])).
    rewrite length_app in IH. simpl in IH.
    rewrite Nat.add_1_r in IH. rewrite <- app_assoc in IH. exact IH.
Qed.

(** Selecting every position in order gives the list back. *)
Lemma select_all (xs : list A) : select (seq 0 (List.length xs)) xs = xs.
Proof. exact (select_seq_shift [] xs). Qed.

Lemma select_length (i : list nat) (xs : list A) :
  (forall k, In k i -> (k < List.length xs)%nat) ->
  List.length (select i xs) = List.length i.
Proof.
  induction i as [| k i IH]; intro H; simpl.
  - reflexivity.
  - destruct (nth_error xs k) eqn:E.
    + simpl. f_equal. apply IH. intros; apply H; now right.
    + apply nth_error_None in E. specialize (H k (or_introl eq_refl)). lia.
Qed.

End Selection.

Section SelectionOfTwoLists.
Context {A B : Type}.

(** Selecting positions commutes with mapping over the entries. *)
Lemma select_map (f : A -> B) (i : list nat) (xs : list A) :
  select i (map f xs) = map f (select i xs).
Proof.
  unfold select. induction i as [| k i IH]; simpl.
  - reflexivity.
  - rewrite map_app, <- IH, nth_error_map.
    destruct (nth_error xs k); reflexivity.
Qed.

Lemma Forall2_nth_error_both (R : A -> B -> Prop)
    (xs : list A) (ys : list B) :
  Forall2 R xs ys ->
  forall k, match nth_error xs k, nth_error ys k with
            | Some a, Some b => R a b
            | None, None => True
            | _, _ => False
            end.
Proof.
  induction 1 as [| a b xs ys HR HF IH]; intros [| k]; simpl;
    first [exact I | assumption | apply IH].
Qed.

(** Two lists related entry by entry stay so when the same positions are
    selected from both. *)
Lemma select_Forall2 (R : A -> B -> Prop) (i : list nat)
    (xs : list A) (ys : list B) :
  Forall2 R xs ys -> Forall2 R (select i xs) (select i ys).
Proof.
  intro H. unfold select. induction i as [| k i IH]; simpl.
  - constructor.
  - pose proof (Forall2_nth_error_both R xs ys H k) as Hk.
    destruct (nth_error xs k), (nth_error ys k); simpl;
      try contradiction.
    + constructor; assumption.
    + exact IH.
Qed.

End SelectionOfTwoLists.

Section SplitIndices.
Context {cell Model History Scaler : Type}.
Context {L : Libs cell Model History Scaler}.

Variables (seed : Z) (n : nat).

Let n_test := n_test_of (33 # 100) n.

Lemma rng_permutation_length : List.length (rng_permutation seed n) = n.
Proof.
  rewrite (Permutation_length (rng_permutation_perm seed n)).
  apply length_seq.
Qed.

(** The two index lists are the two ends of the one permutation drawn. *)
Lemma ind_test_train_app :
  ind_test (33 # 100) seed n ++ ind_train (33 # 100) seed n
  = rng_permutation seed n.
Proof.
  unfold ind_test, ind_train.
  rewrite (firstn_all2 (n := (n - _)%nat)).
  - apply firstn_skipn.
  - rewrite length_skipn, rng_permutation_length. lia.
Qed.

Lemma ind_split_Permutation :
  Permutation (ind_test (33 # 100) seed n ++ ind_train (33 # 100) seed n)
              (seq 0 n).
Proof. rewrite ind_test_train_app. apply rng_permutation_perm. Qed.

Lemma ind_split_NoDup :
  NoDup (ind_test (33 # 100) seed n ++ ind_train (33 # 100) seed n).
Proof.
  apply (Permutation_NoDup (Permutation_sym ind_split_Permutation)).
  apply seq_NoDup.
Qed.

Lemma ind_split_disjoint (i : nat) :
  In i (ind_train (33 # 100) seed n) -> ~ In i (ind_test (33 # 100) seed n).
Proof.
  intros Htr Hte.
  pose proof ind_split_NoDup as ND.
  apply NoDup_app_remove_l in ND as ND'.
  revert Hte Htr ND. generalize (ind_test (33 # 100) seed n) as te.
  induction te as [| t te IH]; simpl; intros Hte Htr ND.
  - exact Hte.
  - inversion ND as [| ? ? Hnotin ND1]; subst.
    destruct Hte as [-> | Hte].
    + apply Hnotin. apply in_or_app. now right.
    + now apply IH.
Qed.

Lemma ind_test_length :
  List.length (ind_test (33 # 100) seed n) = n_test.
Proof.
  unfold ind_test. apply firstn_length_le.
  rewrite rng_permutation_length. apply n_test_of_le.
Qed.

Lemma ind_train_length :
  List.length (ind_train (33 # 100) seed n) = (n - n_test)%nat.
Proof.
  pose proof ind_test_length as Hte.
  pose proof (f_equal (@List.length nat) ind_test_train_app) as H.
  rewrite length_app, rng_permutation_length in H. lia.
Qed.

Lemma ind_split_in_range (i : nat) :
  In i (ind_test (33 # 100) seed n ++ ind_train (33 # 100) seed n) ->
  (i < n)%nat.
Proof.
  intro H. apply (Permutation_in _ ind_split_Permutation) in H.
  apply in_seq in H. lia.
Qed.

End SplitIndices.

(** Unfolds the monad so that a statement applied to a world computes. *)
Ltac run_monad :=
  unfold bind, attr, assign, lift, lib, print, method_of, subscriptable,
    ret, raise; cbn [fst snd self calls stdout].

Section SplitOfTrain.
Context {cell Model History Scaler : Type}.
Context {L : Libs cell Model History Scaler}.

Local Abbreviation Wld := (World cell Model History Scaler).

Lemma has_column_index_of (c : string) (cols : list string) :
  existsb (String.eqb c) cols = true -> exists i, index_of c cols = Some i.
Proof.
  induction cols as [| c' cols IH]; simpl; intro H.
  - discriminate.
  - rewrite (String.eqb_sym c' c).
    destruct (String.eqb c c').
    + now exists 0%nat.
    + destruct (IH H) as [i ->]. now exists (S i).
Qed.

(** Dropping a column keeps every row and its label. *)
Lemma pandas_drop_ok (D : DataFrame cell) (c : string) :
  has_column c D = true ->
  exists Xf, pandas_drop D c = Ok Xf /\ nrows Xf = nrows D
             /\ labels Xf = labels D.
Proof.
  intro H. unfold pandas_drop. rewrite H. eexists. split; [reflexivity |].
  unfold nrows, labels. simpl. split.
  - apply length_map.
  - rewrite map_map. reflexivity.
Qed.

Lemma pandas_getitem_ok (D : DataFrame cell) (c : string) :
  has_column c D = true -> exists ys, pandas_getitem D c = Ok ys.
Proof.
  intro H. unfold pandas_getitem.
  destruct (has_column_index_of c (columns D) H) as [i ->].
  eexists. reflexivity.
Qed.

Lemma filter_one_existsb (c : string) (cols : list string) :
  List.length (filter (String.eqb c) cols) = 1%nat ->
  existsb (String.eqb c) cols = true.
Proof.
  induction cols as [| c' cols IH]; simpl; intro H.
  - discriminate.
  - destruct (String.eqb c c'); simpl in *; [reflexivity | now apply IH].
Qed.

Lemma names_one_column_has_column (c : string) (D : DataFrame cell) :
  names_one_column c D = true -> has_column c D = true.
Proof.
  unfold names_one_column, has_column. intro H.
  apply Nat.eqb_eq in H. now apply filter_one_existsb.
Qed.

Lemma index_of_lt (c : string) (cols : list string) (k : nat) :
  index_of c cols = Some k -> (k < List.length cols)%nat.
Proof.
  revert k. induction cols as [| c' cols IH]; simpl; intros k H.
  - discriminate.
  - destruct (String.eqb c' c).
    + injection H as <-. lia.
    + destruct (index_of c cols) as [j |]; simpl in H; [| discriminate].
      injection H as <-. specialize (IH j eq_refl). lia.
Qed.

(** The rows of [df.drop(c, axis=1)] are the features of the rows of
    [df], in the order of [df]. *)
Lemma pandas_drop_rows (D Xf : DataFrame cell) (c : string) :
  pandas_drop D c = Ok Xf -> rows Xf = map (features_of c D) (rows D).
Proof.
  unfold pandas_drop. destruct (has_column c D); [| discriminate].
  intro H. injection H as <-. reflexivity.
Qed.

(** The entries of [df[c]] are the targets of the rows of [df], in the
    order of [df]. *)
Lemma pandas_getitem_targets (D : DataFrame cell) (c : string)
    (ys : Series cell) :
  rectangular D = true ->
  pandas_getitem D c = Ok ys ->
  name ys = c /\ Forall2 (target_of c D) (rows D) (entries ys).
Proof.
  unfold rectangular, pandas_getitem. intros HR H.
  destruct (index_of c (columns D)) as [k |] eqn:Ek; [| discriminate].
  injection H as <-. simpl. split; [reflexivity |].
  pose proof (index_of_lt _ _ _ Ek) as Hk.
  revert HR. generalize (rows D) as rs.
  induction rs as [| r rs IH]; simpl; intro HR.
  - constructor.
  - apply andb_prop in HR as [Hr HR]. apply Nat.eqb_eq in Hr.
    destruct (nth_error (snd r) k) as [v |] eqn:Ev.
    + simpl. constructor; [| now apply IH].
      split; [reflexivity |]. exists k. split; [exact Ek | exact Ev].
    + apply nth_error_None in Ev. lia.
Qed.

(** Lines 57-62 on a bound dataset of two rows or more that has the
    outcome column: nothing is raised and the seven attributes are
    assigned. *)
Lemma train_split_ok (w : Wld) (D : DataFrame cell) (c : string) :
  data (self w) = Some D ->
  outcome_pointer (self w) = Some c ->
  has_column c D = true ->
  (2 <= nrows D)%nat ->
  exists Xf ys,
    pandas_drop D c = Ok Xf /\ pandas_getitem D c = Ok ys /\
    nrows Xf = nrows D /\ labels Xf = labels D /\
    train_split w
    = (Ok tt, mkWorld (with_split Xf ys (self w)) (calls w) (stdout w)).
Proof.
  intros Hd Hp Hc Hn.
  destruct (pandas_drop_ok D c Hc) as (Xf & EX & HnX & HlX).
  destruct (pandas_getitem_ok D c Hc) as (ys & Ey).
  exists Xf, ys. repeat split; try assumption.
  unfold train_split. run_monad.
  repeat (first [rewrite Hd | rewrite Hp | rewrite EX | rewrite Ey];
          cbn -[n_test_of ind_test ind_train Nat.eqb Nat.sub]).
  rewrite HnX.
  destruct (Nat.eqb_spec (nrows D - n_test_of (33 # 100) (nrows D)) 0)
    as [E0 | _].
  - exfalso. revert E0. now apply n_train_positive.
  - unfold with_split. rewrite HnX. reflexivity.
Qed.

End SplitOfTrain.

Section AfterTheSplit.
Context {cell Model History Scaler : Type}.
Context {L : Libs cell Model History Scaler}.

Local Abbreviation Wld := (World cell Model History Scaler).
Local Abbreviation Stmt := (M cell Model History Scaler).

(** [train] is its four stages in sequence; once the first has returned,
    the run continues from the world it left. *)
Lemma train_from_split scale tool resample ratio ep bs vb (w w1 : Wld) :
  train_split w = (Ok tt, w1) ->
  train scale tool resample ratio ep bs vb w
  = bind (train_resample resample ratio)
      (fun _ => bind (train_scale scale tool)
                  (fun _ => train_fit ep bs vb)) w1.
Proof. intro H. unfold train. unfold bind at 1. rewrite H. reflexivity. Qed.

Ltac frame_of_stages :=
  unfold train_resample, train_scale, train_fit,
    normalize_without_arguments;
  cbv beta iota;
  frame_steps; apply keras_fit_preserves; reflexivity.

(** Nothing after line 62 assigns [y_test]. *)
Lemma stages_preserve_y_test scale tool resample ratio ep bs vb :
  preserves y_test
    (bind (train_resample resample ratio)
       (fun _ => bind (train_scale scale tool)
                   (fun _ => train_fit ep bs vb)) : Stmt unit).
Proof. frame_of_stages. Qed.

(** Only the resampling assigns [y_train] after line 62. *)
Lemma stages_preserve_y_train scale tool ratio ep bs vb :
  preserves y_train
    (bind (train_resample false ratio)
       (fun _ => bind (train_scale scale tool)
                   (fun _ => train_fit ep bs vb)) : Stmt unit).
Proof. frame_of_stages. Qed.

(** Only the scaling assigns [X_test] after line 62. *)
Lemma stages_preserve_X_test tool resample ratio ep bs vb :
  preserves X_test
    (bind (train_resample resample ratio)
       (fun _ => bind (train_scale false tool)
                   (fun _ => train_fit ep bs vb)) : Stmt unit).
Proof. frame_of_stages. Qed.

(** Only the resampling and the scaling assign [X_train] after line 62. *)
Lemma stages_preserve_X_train tool ratio ep bs vb :
  preserves X_train
    (bind (train_resample false ratio)
       (fun _ => bind (train_scale false tool)
                   (fun _ => train_fit ep bs vb)) : Stmt unit).
Proof. frame_of_stages. Qed.

End AfterTheSplit.

Section TheSplitOfTrain.
Context {cell Model History Scaler : Type}.
Context {L : Libs cell Model History Scaler}.

Local Abbreviation Wld := (World cell Model History Scaler).

Lemma take_rows_nrows (i : list nat) (Xf : DataFrame cell) :
  (forall k, In k i -> (k < nrows Xf)%nat) ->
  nrows (take_rows i Xf) = List.length i.
Proof. intro H. unfold nrows, take_rows. simpl. now apply select_length. Qed.

(** The parts of a split frame and of a split series are the features and
    the targets of the rows of [D] at the selected positions. *)
Lemma split_parts_of_rows (D Xf : DataFrame cell) (ys : Series cell)
    (c : string) (i : list nat) :
  rectangular D = true ->
  pandas_drop D c = Ok Xf ->
  pandas_getitem D c = Ok ys ->
  rows (take_rows i Xf) = map (features_of c D) (select i (rows D)) /\
  Forall2 (target_of c D) (select i (rows D)) (entries (take_entries i ys)).
Proof.
  intros HR EX Ey. split.
  - unfold take_rows. simpl. rewrite (pandas_drop_rows _ _ _ EX).
    apply select_map.
  - unfold take_entries. simpl. apply select_Forall2.
    now apply pandas_getitem_targets.
Qed.

(** C1.  [train] on a bound, rectangular dataset [D] of two rows or more
    whose outcome label [c] names exactly one column cuts the rows of [D]
    in a test part and a train part.  The positions of the two parts,
    [ind_test] and [ind_train], are drawn with the fixed seed 101 from
    [|D|] alone; together they are a permutation of the positions
    [0 .. |D|-1] and they are disjoint, so every row is in exactly one
    part; the sizes add up to [|D|], and the test part has
    [ceil(0.33 * |D|)] rows, less than one row above 33%.  The feature
    parts hold the rows of [D] at these positions without the outcome
    column, the target parts hold, entry by entry, the index label and the
    outcome cell of the same rows.  [train] stores the target of the test
    part in [y_test], and the other three parts in [y_train], [X_test] and
    [X_train] unless resampling or scaling replaces them.  A second run
    [w2] on the same dataset stores the same parts, whatever the object
    held before. *)
Theorem train_splits_rows_reproducibly :
  forall (w w2 : Wld) (D : DataFrame cell) (c : string)
         (scale : bool) (tool : string) (resample : bool) (ratio : Q)
         (ep bs vb : Z),
    data (self w) = Some D ->
    outcome_pointer (self w) = Some c ->
    data (self w2) = Some D ->
    outcome_pointer (self w2) = Some c ->
    names_one_column c D = true ->
    rectangular D = true ->
    (2 <= nrows D)%nat ->
    let i_train := ind_train (33 # 100) 101 (nrows D) in
    let i_test := ind_test (33 # 100) 101 (nrows D) in
    let train_rows := select i_train (rows D) in
    let test_rows := select i_test (rows D) in
    let o' := self (snd (train scale tool resample ratio ep bs vb w)) in
    let o2' := self (snd (train scale tool resample ratio ep bs vb w2)) in
    Permutation (i_test ++ i_train) (seq 0 (nrows D)) /\
    (forall i, In i i_train -> ~ In i i_test) /\
    Permutation (test_rows ++ train_rows) (rows D) /\
    (List.length train_rows + List.length test_rows = nrows D)%nat /\
    (0 <= 100 * Z.of_nat (List.length test_rows)
          - 33 * Z.of_nat (nrows D) < 100)%Z /\
    exists (Xtr Xte : DataFrame cell) (ytr yte : Series cell),
      rows Xtr = map (features_of c D) train_rows /\
      rows Xte = map (features_of c D) test_rows /\
      Forall2 (target_of c D) train_rows (entries ytr) /\
      Forall2 (target_of c D) test_rows (entries yte) /\
      (nrows Xtr + nrows Xte = nrows D)%nat /\
      (List.length (entries ytr) + List.length (entries yte)
       = nrows D)%nat /\
      y_test o' = Some (Ser yte) /\
      (resample = false -> y_train o' = Some (Ser ytr)) /\
      (scale = false -> X_test o' = Some (Frame Xte)) /\
      (resample = false -> scale = false ->
       X_train o' = Some (Frame Xtr)) /\
      y_test o2' = y_test o' /\
      (resample = false -> y_train o2' = y_train o') /\
      (scale = false -> X_test o2' = X_test o') /\
      (resample = false -> scale = false -> X_train o2' = X_train o').
Proof.
  intros w w2 D c scale tool resample ratio ep bs vb
    Hd Hp Hd2 Hp2 H1 HR Hn i_train i_test train_rows test_rows o' o2'.
  pose proof (names_one_column_has_column c D H1) as Hc.
  destruct (train_split_ok w D c Hd Hp Hc Hn)
    as (Xf & ys & EX & Ey & HnX & HlX & Hrun).
  destruct (train_split_ok w2 D c Hd2 Hp2 Hc Hn)
    as (Xf2 & ys2 & EX2 & Ey2 & _ & _ & Hrun2).
  rewrite EX in EX2. injection EX2 as <-.
  rewrite Ey in Ey2. injection Ey2 as <-.
  destruct (split_parts_of_rows D Xf ys c i_train HR EX Ey) as [RXtr Rytr].
  destruct (split_parts_of_rows D Xf ys c i_test HR EX Ey) as [RXte Ryte].
  assert (Hte : List.length test_rows = List.length i_test).
  { apply select_length. intros k Hk.
    apply (ind_split_in_range (L := L) 101). apply in_or_app. now left. }
  assert (Htr : List.length train_rows = List.length i_train).
  { apply select_length. intros k Hk.
    apply (ind_split_in_range (L := L) 101). apply in_or_app. now right. }
  assert (Hsum : (List.length train_rows + List.length test_rows
                  = nrows D)%nat).
  { rewrite Hte, Htr. subst i_test i_train.
    rewrite ind_test_length, ind_train_length.
    pose proof (n_test_of_le (nrows D)). lia. }
  assert (Ey' : y_test o' = Some (Ser (take_entries i_test ys))).
  { subst o'. rewrite (train_from_split _ _ _ _ _ _ _ _ _ Hrun).
    rewrite stages_preserve_y_test. cbn. now rewrite HnX. }
  assert (Eytr : resample = false ->
                 y_train o' = Some (Ser (take_entries i_train ys))).
  { intros ->. subst o'. rewrite (train_from_split _ _ _ _ _ _ _ _ _ Hrun).
    rewrite stages_preserve_y_train. cbn. now rewrite HnX. }
  assert (EXte : scale = false ->
                 X_test o' = Some (Frame (take_rows i_test Xf))).
  { intros ->. subst o'. rewrite (train_from_split _ _ _ _ _ _ _ _ _ Hrun).
    rewrite stages_preserve_X_test. cbn. now rewrite HnX. }
  assert (EXtr : resample = false -> scale = false ->
                 X_train o' = Some (Frame (take_rows i_train Xf))).
  { intros -> ->. subst o'.
    rewrite (train_from_split _ _ _ _ _ _ _ _ _ Hrun).
    rewrite stages_preserve_X_train. cbn. now rewrite HnX. }
  split; [apply ind_split_Permutation |].
  split; [intros i; apply ind_split_disjoint |].
  split.
  { subst test_rows train_rows. rewrite <- select_app.
    eapply Permutation_trans.
    - apply select_Permutation. apply ind_split_Permutation.
    - unfold nrows. rewrite select_all. apply Permutation_refl. }
  split; [exact Hsum |].
  split.
  { rewrite Hte. subst i_test. rewrite ind_test_length.
    apply n_test_of_bounds. }
  exists (take_rows i_train Xf), (take_rows i_test Xf),
         (take_entries i_train ys), (take_entries i_test ys).
  split; [exact RXtr |]. split; [exact RXte |].
  split; [exact Rytr |]. split; [exact Ryte |].
  split.
  { unfold nrows at 1 2. rewrite RXtr, RXte, !length_map. exact Hsum. }
  split.
  { rewrite <- (Forall2_length Rytr), <- (Forall2_length Ryte).
    exact Hsum. }
  split; [exact Ey' |]. split; [exact Eytr |]. split; [exact EXte |].
  split; [exact EXtr |].
  split.
  { rewrite Ey'. subst o2'.
    rewrite (train_from_split _ _ _ _ _ _ _ _ _ Hrun2).
    rewrite stages_preserve_y_test. cbn. now rewrite HnX. }
  split.
  { intro E. rewrite (Eytr E). subst resample o2'.
    rewrite (train_from_split _ _ _ _ _ _ _ _ _ Hrun2).
    rewrite stages_preserve_y_train. cbn. now rewrite HnX. }
  split.
  { intro E. rewrite (EXte E). subst scale o2'.
    rewrite (train_from_split _ _ _ _ _ _ _ _ _ Hrun2).
    rewrite stages_preserve_X_test. cbn. now rewrite HnX. }
  intros E1 E2. rewrite (EXtr E1 E2). subst resample scale o2'.
  rewrite (train_from_split _ _ _ _ _ _ _ _ _ Hrun2).
  rewrite stages_preserve_X_train. cbn. now rewrite HnX.
Qed.


End TheSplitOfTrain.

(** ** What [train] leaves alone *)

Section DatasetUntouched.
Context {cell Model History Scaler : Type}.
Context {L : Libs cell Model History Scaler}.

(** C10.  [train] never assigns the bound dataset or the name of the
    outcome column: after any call, returned or raised, [data] and
    [outcome_pointer] hold what they held before. *)
Theorem train_leaves_data_and_outcome_pointer :
  forall (scale : bool) (tool : string) (resample : bool) (ratio : Q)
         (ep bs vb : Z) (w : World cell Model History Scaler),
    let w' := snd (train scale tool resample ratio ep bs vb w) in
    data (self w') = data (self w) /\
    outcome_pointer (self w') = outcome_pointer (self w).
Proof.
  intros. split.
  - apply train_preserves_data.
  - apply train_preserves_outcome_pointer.
Qed.

End DatasetUntouched.

(** ** [calculate] *)

(** Case analysis on whatever the goal branches on first. *)
Ltac branch :=
  match goal with
  | |- context [match ?x with _ => _ end] =>
      lazymatch x with
      | context [match _ with _ => _ end] => fail
      | _ => destruct x eqn:?
      end
  end.

Section Calculate.
Context {cell Model History Scaler : Type}.
Context {L : Libs cell Model History Scaler}.

Local Abbreviation Wld := (World cell Model History Scaler).

Lemma skipn_length_app (A : Type) (l l' : list A) :
  skipn (List.length l) (l ++ l') = l'.
Proof. induction l; simpl; auto. Qed.

Lemma calls_since_app (w w' : Wld) cs :
  calls w' = calls w ++ cs -> calls_since w w' = cs.
Proof. intro H. unfold calls_since. rewrite H. apply skipn_length_app. Qed.

Lemma calls_since_refl (w w' : Wld) :
  calls w' = calls w -> calls_since w w' = [].
Proof.
  intro H. apply calls_since_app. rewrite H. symmetry. apply app_nil_r.
Qed.

(** The library calls of one [calculate], in order. *)
Lemma calculate_calls (x : features cell) (h o : bool) (w : Wld) :
  calls (snd (calculate x h o w))
  = calls w
    ++ (if scaled_inputs (self w) && negb o then
          match scaling_tool (self w) with
          | Some s =>
              scaler_transform_call s (Some x)
              :: match scaler_transform s (Some x) with
                 | Ok a => [model_predict_call (model (self w)) [Array a]]
                 | Raised _ => []
                 end
          | None => []
          end
        else [model_predict_call (model (self w)) [x]]).
Proof.
  unfold calculate, item_0_0. run_monad.
  destruct h, (scaled_inputs (self w)), o; cbn;
    repeat (branch; cbn);
    rewrite <- ?app_assoc, ?app_nil_r; reflexivity.
Qed.

(** C3.  The two branches of [calculate] on [happening] are the same
    statement: for every input row and every value of [override] the
    call returns the same probability (and leaves the same world) with
    [happening] true as with [happening] false. *)
Theorem calculate_ignores_happening :
  forall (input_array : features cell) (override : bool) (w : Wld),
    calculate input_array true override w
    = calculate input_array false override w.
Proof. intros. reflexivity. Qed.

(** The outcome of one [calculate]: the first entry of the first row of
    what [model.predict] returns, on the transformed row when the scaler
    is applied and on the row as given otherwise. *)
Lemma calculate_outcome (x : features cell) (h o : bool) (w : Wld) :
  fst (calculate x h o w)
  = let predicted (row : features cell) : result cell :=
      match model_predict (model (self w)) [row] with
      | Ok ((c :: _) :: _) => Ok c
      | Ok _ => Raised IndexError
      | Raised e => Raised e
      end in
    if scaled_inputs (self w) && negb o then
      match scaling_tool (self w) with
      | Some s =>
          match scaler_transform s (Some x) with
          | Ok a => predicted (Array a)
          | Raised e => Raised e
          end
      | None => Raised AttributeError
      end
    else predicted x.
Proof.
  unfold calculate, item_0_0. run_monad.
  destruct h, (scaled_inputs (self w)), o; cbn;
    repeat (branch; cbn); reflexivity.
Qed.

(** C5.  [calculate] calls the transform of a scaler exactly when a
    scaler is active (the flag [scaled_inputs] is set and a scaler is
    stored) and [override] is false.  It is then the stored scaler's
    transform of the input row, and what the transform returns is the row
    [model.predict] receives and the probability is read from: the two
    calls are all the library calls.  When the flag is clear or [override]
    is true, the only library call is the prediction of the model on the
    input row as given, also when a scaler is stored. *)
Theorem calculate_transforms_iff_active_and_not_overridden :
  forall (input_array : features cell) (happening override : bool)
         (w : Wld),
    let w' := snd (calculate input_array happening override w) in
    let r := fst (calculate input_array happening override w) in
    let m := model (self w) in
    let predicted (row : features cell) : result cell :=
      match model_predict m [row] with
      | Ok ((c :: _) :: _) => Ok c
      | Ok _ => Raised IndexError
      | Raised e => Raised e
      end in
    (existsb is_transform_call (calls_since w w') = true <->
     (scaled_inputs (self w) = true /\ scaling_tool (self w) <> None)
     /\ override = false) /\
    (forall s, scaled_inputs (self w) = true ->
               scaling_tool (self w) = Some s ->
               override = false ->
               match scaler_transform s (Some input_array) with
               | Ok a =>
                   calls_since w w'
                   = [scaler_transform_call s (Some input_array);
                      model_predict_call m [Array a]] /\
                   r = predicted (Array a)
               | Raised e =>
                   calls_since w w'
                   = [scaler_transform_call s (Some input_array)] /\
                   r = Raised e
               end) /\
    (scaled_inputs (self w) = false \/ override = true ->
     calls_since w w' = [model_predict_call m [input_array]] /\
     r = predicted input_array).
Proof.
  intros x h o w w' r m predicted. subst w' r m predicted.
  rewrite (calls_since_app _ _ _ (calculate_calls x h o w)).
  rewrite calculate_outcome. cbv zeta.
  destruct (scaled_inputs (self w)), o; cbn.
  - split; [split; [discriminate | intros [_ H]; discriminate] |].
    split; [intros; discriminate | intros _; split; reflexivity].
  - destruct (scaling_tool (self w)) as [s |]; cbn.
    + split; [split; [intros _; repeat split; discriminate | reflexivity] |].
      split; [| intros [H | H]; discriminate].
      intros s' _ Hs' _. injection Hs' as <-.
      destruct (scaler_transform s (Some x)); split; reflexivity.
    + split; [split; [discriminate | intros [[_ H] _]; now elim H] |].
      split; [intros; discriminate | intros [H | H]; discriminate].
  - split; [split; [discriminate | intros [[H _] _]; discriminate] |].
    split; [intros; discriminate | intros _; split; reflexivity].
  - split; [split; [discriminate | intros [[H _] _]; discriminate] |].
    split; [intros; discriminate | intros _; split; reflexivity].
Qed.

End Calculate.

(** ** The stages of [train], one at a time *)

Section Stages.
Context {cell Model History Scaler : Type}.
Context {L : Libs cell Model History Scaler}.

Local Abbreviation Wld := (World cell Model History Scaler).
Local Abbreviation Stmt := (M cell Model History Scaler).

Ltac frame_of_stage :=
  unfold train_split, train_resample, train_scale, train_fit,
    normalize_without_arguments;
  cbv beta iota;
  frame_steps.

(** [train] stage by stage: each stage runs in the world the one before
    left, and the first exception ends the run. *)
Lemma train_stages scale tool resample ratio ep bs vb (w : Wld) :
  train scale tool resample ratio ep bs vb w
  = match train_split w with
    | (Ok _, w1) =>
        match train_resample resample ratio w1 with
        | (Ok _, w2) =>
            match train_scale scale tool w2 with
            | (Ok _, w3) => train_fit ep bs vb w3
            | (Raised e, w3) => (Raised e, w3)
            end
        | (Raised e, w2) => (Raised e, w2)
        end
    | (Raised e, w1) => (Raised e, w1)
    end.
Proof. reflexivity. Qed.

(** The split and the resampling assign neither the scaler, nor the flag,
    nor the model, nor the history. *)
Lemma train_split_preserves_scaling_tool :
  preserves scaling_tool (train_split : Stmt unit).
Proof. frame_of_stage. Qed.

Lemma train_split_preserves_model :
  preserves model (train_split : Stmt unit).
Proof. frame_of_stage. Qed.

Lemma train_split_preserves_history :
  preserves history (train_split : Stmt unit).
Proof. frame_of_stage. Qed.

Lemma train_resample_preserves_scaling_tool resample ratio :
  preserves scaling_tool (train_resample resample ratio : Stmt unit).
Proof. frame_of_stage. Qed.

Lemma train_resample_preserves_model resample ratio :
  preserves model (train_resample resample ratio : Stmt unit).
Proof. frame_of_stage. Qed.

Lemma train_resample_preserves_history resample ratio :
  preserves history (train_resample resample ratio : Stmt unit).
Proof. frame_of_stage. Qed.

(** The split calls none of the logged libraries. *)
Lemma train_split_calls (w : Wld) : calls (snd (train_split w)) = calls w.
Proof.
  unfold train_split. run_monad.
  repeat (branch; cbn); reflexivity.
Qed.

(** The resampling stage calls SMOTE, once, when asked to, and nothing
    else. *)
Lemma train_resample_calls resample ratio (w : Wld) :
  calls (snd (train_resample resample ratio w))
  = calls w
    ++ (if resample
        then [SMOTE_call ratio (X_train (self w)) (y_train (self w))]
        else []).
Proof.
  unfold train_resample. run_monad.
  destruct resample; cbn; repeat (branch; cbn);
    rewrite ?app_nil_r; reflexivity.
Qed.

(** Line 79 with no scaler stored: with a scaling tool that is none of
    ['standard'], ['min max'], ['normalize'], lines 73-78 assign nothing
    and [self.scaling_tool.fit] is an attribute of [None]. *)
Lemma train_scale_unknown_tool (tool : string) (w : Wld) :
  String.eqb tool "standard" = false ->
  String.eqb tool "min max" = false ->
  String.eqb tool "normalize" = false ->
  scaling_tool (self w) = None ->
  train_scale true tool w
  = (Raised AttributeError,
     mkWorld (set_scaled_inputs true (self w)) (calls w) (stdout w)).
Proof.
  intros H1 H2 H3 Hs. unfold train_scale. run_monad.
  rewrite H1, H2, H3. cbn. rewrite Hs. reflexivity.
Qed.

(** Line 78: [normalize()] raises before anything is assigned or
    fitted. *)
Lemma train_scale_normalize (w : Wld) :
  train_scale true "normalize" w
  = (Raised TypeError,
     mkWorld (set_scaled_inputs true (self w)) (calls w) (stdout w)).
Proof. reflexivity. Qed.

(** Lines 73-81 with ['standard'] or ['min max']: a new scaler of that
    kind is fitted on [X_train] and transforms [X_train], then [X_test]. *)
Lemma train_scale_known_tool (tool : string) (s0 : Scaler) (w : Wld) :
  (tool = "standard" /\ s0 = StandardScaler) \/
  (tool = "min max" /\ s0 = MinMaxScaler) ->
  train_scale true tool w
  = match scaler_fit s0 (X_train (self w)) with
    | Raised e =>
        (Raised e,
         mkWorld (set_scaling_tool (Some s0)
                    (set_scaled_inputs true (self w)))
           (calls w ++ [scaler_fit_call s0 (X_train (self w))])
           (stdout w))
    | Ok s =>
        match scaler_transform s (X_train (self w)) with
        | Raised e =>
            (Raised e,
             mkWorld (set_scaling_tool (Some s)
                        (set_scaled_inputs true (self w)))
               (calls w ++ [scaler_fit_call s0 (X_train (self w));
                            scaler_transform_call s (X_train (self w))])
               (stdout w))
        | Ok a =>
            match scaler_transform s (X_test (self w)) with
            | Raised e =>
                (Raised e,
                 mkWorld (set_X_train (Some (Array a))
                            (set_scaling_tool (Some s)
                               (set_scaled_inputs true (self w))))
                   (calls w
                    ++ [scaler_fit_call s0 (X_train (self w));
                        scaler_transform_call s (X_train (self w));
                        scaler_transform_call s (X_test (self w))])
                   (stdout w))
            | Ok b =>
                (Ok tt,
                 mkWorld (set_X_test (Some (Array b))
                            (set_X_train (Some (Array a))
                               (set_scaling_tool (Some s)
                                  (set_scaled_inputs true (self w)))))
                   (calls w
                    ++ [scaler_fit_call s0 (X_train (self w));
                        scaler_transform_call s (X_train (self w));
                        scaler_transform_call s (X_test (self w))])
                   (stdout w))
            end
        end
    end.
Proof.
  intros [[-> ->] | [-> ->]]; unfold train_scale; run_monad; cbn;
    repeat (branch; cbn); rewrite <- ?app_assoc; reflexivity.
Qed.



(** Lines 85-86, case by case on what [model.fit] does. *)
Lemma train_fit_run (ep bs vb : Z) (w : Wld) :
  train_fit ep bs vb w
  = let m := model (self w) in
    let Xa := X_train (self w) in
    let ya := y_train (self w) in
    let log := calls w ++ [model_fit_call m Xa ya (33 # 100) ep bs vb] in
    match model_fit m Xa ya (33 # 100) ep bs vb with
    | (Ok h, m') =>
        (Ok tt,
         mkWorld (set_history (Some h) (set_model m' (self w))) log
           (stdout w))
    | (Raised e, m') =>
        (Raised e, mkWorld (set_model m' (self w)) log (stdout w))
    end.
Proof.
  unfold train_fit, keras_fit. run_monad. cbn.
  repeat (branch; cbn); reflexivity.
Qed.

End Stages.

(** ** [train] with a scaler that cannot be built *)

Section NoScaler.
Context {cell Model History Scaler : Type}.
Context {L : Libs cell Model History Scaler}.

Local Abbreviation Wld := (World cell Model History Scaler).

(** Where a run of [train] with [scale] set stops when line 73-79 raise
    [e] in every world, assigning only the flag: at the split or the
    resampling if they raise, at the scaling otherwise; the model is never
    fitted, and no scaler either. *)
Lemma train_stops_at_scaling (tool : string) (e : exn) resample ratio
    ep bs vb (w : Wld) :
  (forall w2 : Wld,
      scaling_tool (self w2) = scaling_tool (self w) ->
      train_scale true tool w2
      = (Raised e,
         mkWorld (set_scaled_inputs true (self w2)) (calls w2) (stdout w2))) ->
  let r := fst (train true tool resample ratio ep bs vb w) in
  let w' := snd (train true tool resample ratio ep bs vb w) in
  is_ok r = false /\
  scaling_tool (self w') = scaling_tool (self w) /\
  model (self w') = model (self w) /\
  history (self w') = history (self w) /\
  existsb is_scaler_fit_call (calls_since w w') = false /\
  existsb is_model_fit_call (calls_since w w') = false /\
  (is_ok (fst (bind train_split
                 (fun _ => train_resample resample ratio) w)) = true ->
   r = Raised e /\ scaled_inputs (self w') = true).
Proof.
  intros Hscale r w'. subst r w'.
  rewrite train_stages. unfold bind.
  pose proof (train_split_calls w) as Hc1.
  pose proof (train_split_preserves_scaling_tool w) as Hs1.
  pose proof (train_split_preserves_model w) as Hm1.
  pose proof (train_split_preserves_history w) as Hh1.
  destruct (train_split w) as [[[] | e1] w1]; cbn [fst snd] in *.
  - pose proof (train_resample_calls resample ratio w1) as Hc2.
    pose proof (train_resample_preserves_scaling_tool resample ratio w1)
      as Hs2.
    pose proof (train_resample_preserves_model resample ratio w1) as Hm2.
    pose proof (train_resample_preserves_history resample ratio w1) as Hh2.
    rewrite Hc1 in Hc2.
    destruct (train_resample resample ratio w1) as [[[] | e2] w2];
      cbn [fst snd] in *.
    + rewrite (Hscale w2) by congruence. cbn [fst snd].
      erewrite calls_since_app by exact Hc2. cbn.
      repeat split; try congruence; destruct resample; reflexivity.
    + erewrite calls_since_app by exact Hc2.
      repeat split; try congruence; try (destruct resample; reflexivity).
      all: discriminate.
  - erewrite calls_since_refl by exact Hc1.
    repeat split; try congruence; discriminate.
Qed.

(** C9.  On an orchestrator that holds no scaler (as [__init__] leaves
    it), [train] with [scale] set and a scaling tool that is none of
    ['standard'], ['min max'], ['normalize'] never returns: the stored
    scaler is still [None] afterwards, no scaler and no model was fitted
    (the model and the history are what they were), and when the split
    and the resampling before it went through, the exception is the
    [AttributeError] of [self.scaling_tool.fit] on [None], raised with
    [scaled_inputs] already set. *)
Theorem train_unknown_scaling_tool_raises :
  forall (tool : string) (resample : bool) (ratio : Q) (ep bs vb : Z)
         (w : Wld),
    scaling_tool (self w) = None ->
    tool <> "standard" -> tool <> "min max" -> tool <> "normalize" ->
    let r := fst (train true tool resample ratio ep bs vb w) in
    let w' := snd (train true tool resample ratio ep bs vb w) in
    is_ok r = false /\
    scaling_tool (self w') = None /\
    model (self w') = model (self w) /\
    history (self w') = history (self w) /\
    existsb is_scaler_fit_call (calls_since w w') = false /\
    existsb is_model_fit_call (calls_since w w') = false /\
    (is_ok (fst (bind train_split
                   (fun _ => train_resample resample ratio) w)) = true ->
     r = Raised AttributeError /\ scaled_inputs (self w') = true).
Proof.
  intros tool resample ratio ep bs vb w Hs H1 H2 H3.
  apply String.eqb_neq in H1, H2, H3.
  pose proof (train_stops_at_scaling tool AttributeError resample ratio
                ep bs vb w) as H.
  cbv zeta in H |- *. rewrite Hs in H. apply H.
  intros w2 Hw2. now apply train_scale_unknown_tool.
Qed.

(** C4, the variant ['normalize'].  [train] with [scale] set and the
    scaling tool ['normalize'] never returns and fits no scaler: line 78
    calls the function [normalize] without its argument.  When the split
    and the resampling went through, the exception is that [TypeError];
    the flag [scaled_inputs] is set, the stored scaler is the one from
    before the call, and the model is not fitted. *)
Theorem train_normalize_raises :
  forall (resample : bool) (ratio : Q) (ep bs vb : Z) (w : Wld),
    let r := fst (train true "normalize" resample ratio ep bs vb w) in
    let w' := snd (train true "normalize" resample ratio ep bs vb w) in
    is_ok r = false /\
    scaling_tool (self w') = scaling_tool (self w) /\
    model (self w') = model (self w) /\
    history (self w') = history (self w) /\
    existsb is_scaler_fit_call (calls_since w w') = false /\
    existsb is_model_fit_call (calls_since w w') = false /\
    (is_ok (fst (bind train_split
                   (fun _ => train_resample resample ratio) w)) = true ->
     r = Raised TypeError /\ scaled_inputs (self w') = true).
Proof.
  intros. apply train_stops_at_scaling.
  intros w2 _. apply train_scale_normalize.
Qed.

End NoScaler.

(** ** [evaluate_outcome] *)

Section EvaluateOutcome.
Context {cell Model History Scaler : Type}.
Context {L : Libs cell Model History Scaler}.

Local Abbreviation Wld := (World cell Model History Scaler).

(** One call of [evaluate_outcome], case by case on what the two library
    calls do. *)
Lemma evaluate_outcome_run (w : Wld) :
  evaluate_outcome w
  = let m := model (self w) in
    let Xa := X_test (self w) in
    let ya := y_test (self w) in
    match model_predict_classes m Xa with
    | Raised e =>
        (Raised e,
         mkWorld (self w) (calls w ++ [model_predict_classes_call m Xa])
           (stdout w))
    | Ok p =>
        match classification_report ya (Some p) with
        | Raised e =>
            (Raised e,
             mkWorld (set_predictions (Some p) (self w))
               (calls w ++ [model_predict_classes_call m Xa;
                            classification_report_call ya (Some p)])
               (stdout w))
        | Ok r =>
            (Ok None,
             mkWorld (set_general_report r
                        (set_predictions (Some p) (self w)))
               (calls w ++ [model_predict_classes_call m Xa;
                            classification_report_call ya (Some p)])
               (stdout w ++ [r]))
        end
    end.
Proof.
  unfold evaluate_outcome. run_monad. cbn.
  repeat (branch; cbn); rewrite <- ?app_assoc; reflexivity.
Qed.

(** C2, as the code has it.  [evaluate_outcome] checks nothing before it
    calls the libraries (the flag [trained] is not read): it raises [e]
    exactly when [predict_classes] of the model raises [e] on the stored
    [X_test] ([None] before any split), or returns and
    [classification_report] raises [e] on the stored [y_test] and the
    predictions. *)
Theorem evaluate_outcome_raises_what_the_libraries_raise :
  forall (w : Wld) (e : exn),
    fst (evaluate_outcome w) = Raised e <->
    (model_predict_classes (model (self w)) (X_test (self w)) = Raised e \/
     exists p,
       model_predict_classes (model (self w)) (X_test (self w)) = Ok p /\
       classification_report (y_test (self w)) (Some p) = Raised e).
Proof.
  intros w e. rewrite evaluate_outcome_run. cbv zeta.
  destruct (model_predict_classes (model (self w)) (X_test (self w)))
    as [p | e1]; cbn.
  - destruct (classification_report (y_test (self w)) (Some p))
      as [r | e2] eqn:Er; cbn.
    + split.
      * discriminate.
      * intros [H | (p' & Hp & Hr)]; [discriminate |].
        injection Hp as <-. rewrite Er in Hr. discriminate.
    + split.
      * intro H. right. exists p. split; [reflexivity | congruence].
      * intros [H | (p' & Hp & Hr)]; [discriminate |].
        injection Hp as <-. congruence.
  - split.
    + intro H. left. congruence.
    + intros [H | (p' & Hp & _)]; [congruence | discriminate].
Qed.

(** C6, as the code has it.  When the two library calls return,
    [evaluate_outcome] returns; it has called [predict_classes] of the
    model on the stored test features and then [classification_report]
    on the stored test target and those predictions, the predictions are
    stored in [predictions], and the report, a string, is stored in
    [general_report] and printed. *)
Theorem evaluate_outcome_stores_predictions_and_prints_report :
  forall (w : Wld) (p : ndarray cell) (r : string),
    model_predict_classes (model (self w)) (X_test (self w)) = Ok p ->
    classification_report (y_test (self w)) (Some p) = Ok r ->
    let w' := snd (evaluate_outcome w) in
    is_ok (fst (evaluate_outcome w)) = true /\
    calls_since w w'
    = [model_predict_classes_call (model (self w)) (X_test (self w));
       classification_report_call (y_test (self w)) (Some p)] /\
    predictions (self w') = Some p /\
    general_report (self w') = r /\
    stdout w' = stdout w ++ [r].
Proof.
  intros w p r Hp Hr w'. subst w'.
  rewrite evaluate_outcome_run. cbv zeta. rewrite Hp, Hr. cbn [fst snd].
  erewrite calls_since_app by reflexivity.
  repeat split.
Qed.

End EvaluateOutcome.

(** ** [train] with resampling *)

Section Resampling.
Context {cell Model History Scaler : Type}.
Context {L : Libs cell Model History Scaler}.

Local Abbreviation Wld := (World cell Model History Scaler).

(** C8, as the code has it.  [train] makes no check of its own on the
    classes or on the ratio.  With [resample] set it hands the train part
    of the split and the ratio to SMOTE; when that call raises, [train]
    stops with the same exception, the split stored and nothing scaled
    or fitted; when it returns, [train] goes on to the scaling with the
    resampled train part stored. *)
Theorem train_resample_raises_what_SMOTE_raises :
  forall (w w1 : Wld) (scale : bool) (tool : string) (ratio : Q)
         (ep bs vb : Z),
    train_split w = (Ok tt, w1) ->
    let Xa := X_train (self w1) in
    let ya := y_train (self w1) in
    match SMOTE_fit_sample ratio Xa ya with
    | Raised e =>
        train scale tool true ratio ep bs vb w
        = (Raised e,
           mkWorld (self w1) (calls w1 ++ [SMOTE_call ratio Xa ya])
             (stdout w1))
    | Ok (Xr, yr) =>
        train scale tool true ratio ep bs vb w
        = bind (train_scale scale tool) (fun _ => train_fit ep bs vb)
            (mkWorld
               (set_y_report (option_map np_array1 (y_test (self w1)))
                  (set_X_report (option_map np_array (X_test (self w1)))
                     (set_y_train (Some (Vec yr))
                        (set_X_train (Some (Array Xr)) (self w1)))))
               (calls w1 ++ [SMOTE_call ratio Xa ya])
               (stdout w1))
    end.
Proof.
  intros w w1 scale tool ratio ep bs vb Hsplit Xa ya. subst Xa ya.
  rewrite train_stages, Hsplit.
  unfold train_resample. run_monad. cbn.
  destruct (SMOTE_fit_sample ratio (X_train (self w1)) (y_train (self w1)))
    as [[Xr yr] | e]; cbn.
  - unfold bind. reflexivity.
  - reflexivity.
Qed.

End Resampling.

(** ** Training again *)

Section Retraining.
Context {cell Model History Scaler : Type}.
Context {L : Libs cell Model History Scaler}.

Local Abbreviation Obj := (TrainingBase cell Model History Scaler).
Local Abbreviation Wld := (World cell Model History Scaler).





End Retraining.

Section RetrainingTheorem.
Context {cell Model History Scaler : Type}.

Local Abbreviation Wld := (World cell Model History Scaler).



End RetrainingTheorem.

(** * The theorems at work on the small instance *)

(** C1 on the four patients: a first run, and a run on an orchestrator that
    was trained with scaling before; both store the same parts. *)
Lemma train_splits_rows_reproducibly_witness :
  data (self Toy.configured) = Some Toy.patients /\
  outcome_pointer (self Toy.configured) = Some "sick" /\
  data (self Toy.trained_scaled) = Some Toy.patients /\
  outcome_pointer (self Toy.trained_scaled) = Some "sick" /\
  names_one_column "sick" Toy.patients = true /\
  rectangular Toy.patients = true /\
  (2 <= nrows Toy.patients)%nat /\
  (let i_train := ind_train (33 # 100) 101 (nrows Toy.patients) in
   let i_test := ind_test (33 # 100) 101 (nrows Toy.patients) in
   let train_rows := select i_train (rows Toy.patients) in
   let test_rows := select i_test (rows Toy.patients) in
   let o' :=
     self (snd (train false "standard" false 1 5 32 0 Toy.configured)) in
   let o2' :=
     self (snd (train false "standard" false 1 5 32 0 Toy.trained_scaled)) in
   Permutation (i_test ++ i_train) (seq 0 (nrows Toy.patients)) /\
   (forall i, In i i_train -> ~ In i i_test) /\
   Permutation (test_rows ++ train_rows) (rows Toy.patients) /\
   (List.length train_rows + List.length test_rows
    = nrows Toy.patients)%nat /\
   (0 <= 100 * Z.of_nat (List.length test_rows)
         - 33 * Z.of_nat (nrows Toy.patients) < 100)%Z /\
   exists (Xtr Xte : DataFrame Z) (ytr yte : Series Z),
     rows Xtr = map (features_of "sick" Toy.patients) train_rows /\
     rows Xte = map (features_of "sick" Toy.patients) test_rows /\
     Forall2 (target_of "sick" Toy.patients) train_rows (entries ytr) /\
     Forall2 (target_of "sick" Toy.patients) test_rows (entries yte) /\
     (nrows Xtr + nrows Xte = nrows Toy.patients)%nat /\
     (List.length (entries ytr) + List.length (entries yte)
      = nrows Toy.patients)%nat /\
     y_test o' = Some (Ser yte) /\
     (false = false -> y_train o' = Some (Ser ytr)) /\
     (false = false -> X_test o' = Some (Frame Xte)) /\
     (false = false -> false = false -> X_train o' = Some (Frame Xtr)) /\
     y_test o2' = y_test o' /\
     (false = false -> y_train o2' = y_train o') /\
     (false = false -> X_test o2' = X_test o') /\
     (false = false -> false = false -> X_train o2' = X_train o')).
Proof.
  assert (H1 : data (self Toy.configured) = Some Toy.patients)
    by reflexivity.
  assert (H2 : outcome_pointer (self Toy.configured) = Some "sick")
    by reflexivity.
  assert (H3 : data (self Toy.trained_scaled) = Some Toy.patients)
    by reflexivity.
  assert (H4 : outcome_pointer (self Toy.trained_scaled) = Some "sick")
    by reflexivity.
  assert (H5 : names_one_column "sick" Toy.patients = true) by reflexivity.
  assert (H6 : rectangular Toy.patients = true) by reflexivity.
  assert (H7 : (2 <= nrows Toy.patients)%nat) by (cbn; lia).
  repeat (split; [assumption |]).
  exact (train_splits_rows_reproducibly Toy.configured Toy.trained_scaled
           Toy.patients "sick" false "standard" false 1 5 32 0
           H1 H2 H3 H4 H5 H6 H7).
Defined.

(** C9 on the bound, never trained orchestrator with the scaling tool
    ['robust']. *)
Lemma train_unknown_scaling_tool_raises_witness :
  scaling_tool (self Toy.configured) = None /\
  "robust" <> "standard" /\ "robust" <> "min max" /\
  "robust" <> "normalize" /\
  (let r := fst (train true "robust" false 1 5 32 0 Toy.configured) in
   let w' := snd (train true "robust" false 1 5 32 0 Toy.configured) in
   is_ok r = false /\
   scaling_tool (self w') = None /\
   model (self w') = model (self Toy.configured) /\
   history (self w') = history (self Toy.configured) /\
   existsb is_scaler_fit_call (calls_since Toy.configured w') = false /\
   existsb is_model_fit_call (calls_since Toy.configured w') = false /\
   (is_ok (fst (bind train_split
                  (fun _ => train_resample false 1) Toy.configured)) = true ->
    r = Raised AttributeError /\ scaled_inputs (self w') = true)).
Proof.
  assert (H0 : scaling_tool (self Toy.configured) = None) by reflexivity.
  assert (H1 : "robust" <> "standard") by discriminate.
  assert (H2 : "robust" <> "min max") by discriminate.
  assert (H3 : "robust" <> "normalize") by discriminate.
  repeat (split; [assumption |]).
  exact (train_unknown_scaling_tool_raises "robust" false 1 5 32 0
           Toy.configured H0 H1 H2 H3).
Defined.

(** C6 on the trained orchestrator: two test rows, two predictions. *)
Lemma evaluate_outcome_stores_predictions_and_prints_report_witness :
  model_predict_classes (model (self Toy.trained_unscaled))
    (X_test (self Toy.trained_unscaled)) = Ok [[1]; [1]]%Z /\
  classification_report (y_test (self Toy.trained_unscaled))
    (Some [[1]; [1]]%Z) = Ok "precision recall f1-score support" /\
  (let w' := snd (evaluate_outcome Toy.trained_unscaled) in
   is_ok (fst (evaluate_outcome Toy.trained_unscaled)) = true /\
   calls_since Toy.trained_unscaled w'
   = [model_predict_classes_call (model (self Toy.trained_unscaled))
        (X_test (self Toy.trained_unscaled));
      classification_report_call (y_test (self Toy.trained_unscaled))
        (Some [[1]; [1]]%Z)] /\
   predictions (self w') = Some [[1]; [1]]%Z /\
   general_report (self w') = "precision recall f1-score support" /\
   stdout w'
   = stdout Toy.trained_unscaled ++ ["precision recall f1-score support"]).
Proof.
  assert (H1 : model_predict_classes (model (self Toy.trained_unscaled))
                 (X_test (self Toy.trained_unscaled)) = Ok [[1]; [1]]%Z)
    by reflexivity.
  assert (H2 : classification_report (y_test (self Toy.trained_unscaled))
                 (Some [[1]; [1]]%Z)
               = Ok "precision recall f1-score support")
    by reflexivity.
  repeat (split; [assumption |]).
  exact (evaluate_outcome_stores_predictions_and_prints_report
           Toy.trained_unscaled [[1]; [1]]%Z
           "precision recall f1-score support" H1 H2).
Defined.

(** C8 on the bound orchestrator with the ratio 0, which the resampler
    refuses: [train] stops with the resampler's [ValueError]. *)
Lemma train_resample_raises_what_SMOTE_raises_witness :
  train_split Toy.configured = (Ok tt, Toy.split_done) /\
  train false "standard" true 0 5 32 0 Toy.configured
  = (Raised ValueError,
     mkWorld (self Toy.split_done)
       (calls Toy.split_done
        ++ [SMOTE_call 0 (X_train (self Toy.split_done))
              (y_train (self Toy.split_done))])
       (stdout Toy.split_done)).
Proof.
  assert (H1 : train_split Toy.configured = (Ok tt, Toy.split_done))
    by (vm_compute; reflexivity).
  split; [assumption |].
  exact (train_resample_raises_what_SMOTE_raises Toy.configured
           Toy.split_done false "standard" 0 5 32 0 H1).
Defined.


(** ** Where the code departs from the specification *)

(** C1 fails for a dataset of one row: the outcome label names one column
    and the frame is rectangular, yet the split (line 62) raises
    [ValueError], since the train part would be empty, and none of the
    four parts is stored. *)
Lemma train_on_one_row_stores_no_part :
  data (self Toy.configured_one_row) = Some Toy.one_patient /\
  nrows Toy.one_patient = 1%nat /\
  names_one_column "sick" Toy.one_patient = true /\
  rectangular Toy.one_patient = true /\
  (let r := train false "standard" false 1 5 32 0 Toy.configured_one_row in
   fst r = Raised ValueError /\
   X_train (self (snd r)) = None /\ X_test (self (snd r)) = None /\
   y_train (self (snd r)) = None /\ y_test (self (snd r)) = None).
Proof. vm_compute. repeat split. Qed.

(** C2 fails: [train] with the scaling tool ['robust'] raises after the
    split was stored, so it has not completed (and [trained] is false);
    [evaluate_outcome] on that orchestrator returns. *)
Lemma evaluate_outcome_returns_after_failed_train :
  is_ok (fst (train true "robust" false 1 5 32 0 Toy.configured)) = false /\
  trained (self Toy.failed_scaling) = false /\
  fst (evaluate_outcome Toy.failed_scaling) = Ok None.
Proof. vm_compute. repeat split. Qed.

(** C6 fails: on the trained orchestrator [evaluate_outcome] evaluates to
    [None], not to the predictions it stored, and not to a report. *)
Lemma evaluate_outcome_returns_None :
  fst (evaluate_outcome Toy.trained_unscaled) = Ok None /\
  predictions (self (snd (evaluate_outcome Toy.trained_unscaled)))
  = Some [[1]; [1]]%Z /\
  fst (evaluate_outcome Toy.trained_unscaled)
  <> Ok (predictions (self (snd (evaluate_outcome Toy.trained_unscaled)))).
Proof. vm_compute. repeat split. discriminate. Qed.


(** C8 fails: with a ratio the resampler refuses, [train] raises the
    resampler's own [ValueError]; no [ResampleError] is raised. *)
Lemma train_invalid_ratio_raises_ValueError :
  fst (train false "standard" true 0 5 32 0 Toy.configured)
  = Raised ValueError /\
  fst (train false "standard" true 0 5 32 0 Toy.configured)
  <> Raised (PyExn "ResampleError").
Proof. vm_compute. split; [reflexivity | discriminate]. Qed.

(** * Further properties of the three methods *)

(** ** [train] on an orchestrator that is not ready *)

Section NotReady.
Context {cell Model History Scaler : Type}.
Context {L : Libs cell Model History Scaler}.

Local Abbreviation Wld := (World cell Model History Scaler).

(** X1.  [train] on an orchestrator with no dataset bound raises the
    [AttributeError] of [self.data.drop] (line 57) and leaves the object,
    the call log and the output exactly as they were: nothing is assigned
    and no library is called. *)
Theorem train_without_dataset_raises_and_changes_nothing :
  forall (scale : bool) (tool : string) (resample : bool) (ratio : Q)
         (ep bs vb : Z) (w : Wld),
    data (self w) = None ->
    train scale tool resample ratio ep bs vb w = (Raised AttributeError, w).
Proof.
  intros scale tool resample ratio ep bs vb w Hd.
  rewrite train_stages. unfold train_split. run_monad.
  rewrite Hd. reflexivity.
Qed.

(** X2.  [train] with a dataset bound whose columns do not include the
    outcome column raises the [KeyError] of [drop] (line 57) and leaves the
    object, the call log and the output exactly as they were. *)
Theorem train_without_outcome_column_raises_KeyError :
  forall (scale : bool) (tool : string) (resample : bool) (ratio : Q)
         (ep bs vb : Z) (w : Wld) (D : DataFrame cell) (c : string),
    data (self w) = Some D ->
    outcome_pointer (self w) = Some c ->
    has_column c D = false ->
    train scale tool resample ratio ep bs vb w = (Raised KeyError, w).
Proof.
  intros scale tool resample ratio ep bs vb w D c Hd Hp Hc.
  rewrite train_stages. unfold train_split. run_monad.
  rewrite Hd. cbn. rewrite Hp. cbn. unfold pandas_drop. rewrite Hc.
  reflexivity.
Qed.

End NotReady.

(** ** What [calculate] and [evaluate_outcome] leave alone *)

Section ReadOnly.
Context {cell Model History Scaler : Type}.
Context {L : Libs cell Model History Scaler}.

Local Abbreviation Wld := (World cell Model History Scaler).

(** X3.  [calculate] only reads the orchestrator: whatever the input, the
    flags and the outcome (a probability or an exception), every attribute
    of the object is afterwards what it was, and nothing is printed. *)
Theorem calculate_leaves_the_object_untouched :
  forall (input_array : features cell) (happening override : bool)
         (w : Wld),
    self (snd (calculate input_array happening override w)) = self w /\
    stdout (snd (calculate input_array happening override w)) = stdout w.
Proof.
  intros x h o w. unfold calculate, item_0_0. run_monad.
  destruct h; repeat (branch; cbn); split; reflexivity.
Qed.

(** X4.  [evaluate_outcome] assigns [predictions] and [general_report]
    only: the model, the dataset, features and target, the split, the
    scaler and its flag, the history, the report copies, the input order
    and the flag [trained] are afterwards what they were, whether the call
    returned or raised. *)
Theorem evaluate_outcome_leaves_training_state_untouched :
  forall w : Wld,
    let o := self w in
    let o' := self (snd (evaluate_outcome w)) in
    model o' = model o /\ data o' = data o /\
    outcome_pointer o' = outcome_pointer o /\
    X o' = X o /\ y o' = y o /\
    X_train o' = X_train o /\ X_test o' = X_test o /\
    y_train o' = y_train o /\ y_test o' = y_test o /\
    scaled_inputs o' = scaled_inputs o /\ scaling_tool o' = scaling_tool o /\
    history o' = history o /\
    X_report o' = X_report o /\ y_report o' = y_report o /\
    input_order o' = input_order o /\ trained o' = trained o.
Proof.
  intro w. cbv zeta. rewrite evaluate_outcome_run. cbv zeta.
  repeat (branch; cbn); repeat split.
Qed.

(** X5.  A second [evaluate_outcome] right after a first one has the same
    outcome and leaves the same object: the call reads only attributes it
    does not assign.  Each call that returns prints the report once. *)
Theorem evaluate_outcome_twice_is_evaluate_outcome_once :
  forall w : Wld,
    let w1 := snd (evaluate_outcome w) in
    let w2 := snd (evaluate_outcome w1) in
    fst (evaluate_outcome w1) = fst (evaluate_outcome w) /\
    self w2 = self w1 /\
    (forall r, fst (evaluate_outcome w) = Ok r ->
               stdout w2
               = stdout w ++ [general_report (self w1);
                              general_report (self w1)]).
Proof.
  intro w. cbv zeta.
  rewrite (evaluate_outcome_run w). cbv zeta.
  destruct (model_predict_classes (model (self w)) (X_test (self w)))
    as [p | e1] eqn:E1; cbn [fst snd].
  - destruct (classification_report (y_test (self w)) (Some p))
      as [r | e2] eqn:E2; cbn [fst snd];
      rewrite evaluate_outcome_run; cbn; rewrite E1; cbn; rewrite E2; cbn.
    + repeat split. intros _ _. rewrite <- app_assoc. reflexivity.
    + repeat split. discriminate.
  - rewrite evaluate_outcome_run. cbn. rewrite E1. cbn.
    repeat split. discriminate.
Qed.

End ReadOnly.

(** ** What a run of [train] that returns has done *)

Section CompletedTrain.
Context {cell Model History Scaler : Type}.
Context {L : Libs cell Model History Scaler}.

Local Abbreviation Wld := (World cell Model History Scaler).
Local Abbreviation Stmt := (M cell Model History Scaler).

Ltac frame_of_train :=
  unfold train, train_split, train_resample, train_scale, train_fit,
    normalize_without_arguments;
  cbv beta iota;
  frame_steps; try (apply keras_fit_preserves; reflexivity).

Lemma train_preserves_trained scale tool resample ratio ep bs vb :
  preserves trained (train (L := L) scale tool resample ratio ep bs vb).
Proof. frame_of_train. Qed.

(** X6.  [train] never assigns the flag [trained]: after any call it is
    what it was, so an orchestrator that comes from [__init__] and has its
    dataset bound still has [trained] false after training, also when the
    run returned. *)
Theorem train_never_sets_trained :
  forall (scale : bool) (tool : string) (resample : bool) (ratio : Q)
         (ep bs vb : Z),
    (forall w : Wld,
        trained (self (snd (train scale tool resample ratio ep bs vb w)))
        = trained (self w)) /\
    (forall (selected_model : Model) (d : option (DataFrame cell))
            (c : option string),
        trained
          (self (snd (train scale tool resample ratio ep bs vb
                        (fresh_world
                           (set_outcome_pointer c
                              (set_data d (init selected_model)))))))
        = false).
Proof.
  intros. split.
  - apply train_preserves_trained.
  - intros. rewrite train_preserves_trained. reflexivity.
Qed.

(** The scaling stage fits no model and leaves the model alone. *)
Lemma train_scale_preserves_model scale tool :
  preserves model (train_scale scale tool : Stmt unit).
Proof.
  unfold train_scale, normalize_without_arguments. cbv beta iota.
  frame_steps.
Qed.

Lemma train_scale_calls_no_model_fit scale tool (w : Wld) :
  exists cs,
    calls (snd (train_scale scale tool w)) = calls w ++ cs /\
    existsb is_model_fit_call cs = false.
Proof.
  unfold train_scale, normalize_without_arguments. run_monad.
  destruct scale; cbn; repeat (branch; cbn);
    rewrite <- ?app_assoc;
    first [ exists []; split; [symmetry; apply app_nil_r | reflexivity]
          | eexists; split; [reflexivity | reflexivity] ].
Qed.

End CompletedTrain.

Section TheFit.
Context {cell Model History Scaler : Type}.
Context {L : Libs cell Model History Scaler}.

Local Abbreviation Wld := (World cell Model History Scaler).

(** X7.  When [train] returns, the wrapped model was fitted exactly once,
    as the last library call of the run, on what the orchestrator now holds
    in [X_train] and [y_train] (the train part as split, resampled or
    scaled), with [validation_split] 0.33 and the epochs, batch size and
    verbosity given; [history] holds what that fit returned and [model] the
    model it left. *)
Theorem train_fits_the_model_on_the_stored_train_part :
  forall (scale : bool) (tool : string) (resample : bool) (ratio : Q)
         (ep bs vb : Z) (w : Wld),
    fst (train scale tool resample ratio ep bs vb w) = Ok tt ->
    let w' := snd (train scale tool resample ratio ep bs vb w) in
    exists cs h,
      calls_since w w'
      = cs ++ [model_fit_call (model (self w)) (X_train (self w'))
                 (y_train (self w')) (33 # 100) ep bs vb] /\
      existsb is_model_fit_call cs = false /\
      model_fit (model (self w)) (X_train (self w')) (y_train (self w'))
        (33 # 100) ep bs vb
      = (Ok h, model (self w')) /\
      history (self w') = Some h.
Proof.
  intros scale tool resample ratio ep bs vb w Hok. cbv zeta.
  rewrite train_stages in *.
  pose proof (train_split_calls w) as Hc1.
  pose proof (train_split_preserves_model w) as Hm1.
  destruct (train_split w) as [[[] | e1] w1]; [| discriminate].
  pose proof (train_resample_calls resample ratio w1) as Hc2.
  pose proof (train_resample_preserves_model resample ratio w1) as Hm2.
  destruct (train_resample resample ratio w1) as [[[] | e2] w2];
    [| discriminate].
  destruct (train_scale_calls_no_model_fit scale tool w2)
    as (cs3 & Hc3 & Hn3).
  pose proof (train_scale_preserves_model scale tool w2) as Hm3.
  destruct (train_scale scale tool w2) as [[[] | e3] w3]; [| discriminate].
  cbn [fst snd] in *.
  rewrite train_fit_run in *. cbv zeta in *.
  destruct (model_fit (model (self w3)) (X_train (self w3))
              (y_train (self w3)) (33 # 100) ep bs vb)
    as [[h | e4] m'] eqn:Ef; [| discriminate].
  cbn [fst snd] in *.
  exists ((if resample
           then [SMOTE_call ratio (X_train (self w1)) (y_train (self w1))]
           else []) ++ cs3), h.
  assert (Hm : model (self w3) = model (self w)) by congruence.
  split.
  { apply calls_since_app. cbn. rewrite Hc3, Hc2, Hc1, Hm.
    rewrite <- !app_assoc. reflexivity. }
  split.
  { rewrite existsb_app, Hn3. destruct resample; reflexivity. }
  split.
  { cbn. rewrite <- Hm. exact Ef. }
  reflexivity.
Qed.

End TheFit.

Section TheScaler.
Context {cell Model History Scaler : Type}.
Context {L : Libs cell Model History Scaler}.

Local Abbreviation Wld := (World cell Model History Scaler).

(** X8.  When [train] with [scale] set and the scaling tool ['standard']
    or ['min max'] returns, [w2] being the world the split and the
    resampling left: one new scaler of that kind was fitted, on the train
    part only; the train part and then the test part were transformed by
    that fitted scaler and replaced by the results; the model was fitted on
    the transformed train part; the targets were not touched.  These four
    are all the library calls after the resampling. *)
Theorem train_fits_the_scaler_on_the_train_part_only :
  forall (tool : string) (s0 : Scaler) (resample : bool) (ratio : Q)
         (ep bs vb : Z) (w w2 : Wld),
    (tool = "standard" /\ s0 = StandardScaler) \/
    (tool = "min max" /\ s0 = MinMaxScaler) ->
    bind train_split (fun _ => train_resample resample ratio) w
    = (Ok tt, w2) ->
    fst (train true tool resample ratio ep bs vb w) = Ok tt ->
    let w' := snd (train true tool resample ratio ep bs vb w) in
    exists s a b,
      scaler_fit s0 (X_train (self w2)) = Ok s /\
      scaler_transform s (X_train (self w2)) = Ok a /\
      scaler_transform s (X_test (self w2)) = Ok b /\
      scaling_tool (self w') = Some s /\
      scaled_inputs (self w') = true /\
      X_train (self w') = Some (Array a) /\
      X_test (self w') = Some (Array b) /\
      y_train (self w') = y_train (self w2) /\
      y_test (self w') = y_test (self w2) /\
      calls_since w2 w'
      = [scaler_fit_call s0 (X_train (self w2));
         scaler_transform_call s (X_train (self w2));
         scaler_transform_call s (X_test (self w2));
         model_fit_call (model (self w2)) (Some (Array a))
           (y_train (self w2)) (33 # 100) ep bs vb].
Proof.
  intros tool s0 resample ratio ep bs vb w w2 Htool Hpre Hok. cbv zeta.
  rewrite train_stages in *. unfold bind in Hpre.
  destruct (train_split w) as [[[] | e1] w1]; [| discriminate].
  rewrite Hpre in *.
  rewrite (train_scale_known_tool tool s0) in * by exact Htool.
  destruct (scaler_fit s0 (X_train (self w2))) as [s | e2] eqn:Es;
    [| discriminate].
  destruct (scaler_transform s (X_train (self w2))) as [a | e3] eqn:Ea;
    [| discriminate].
  destruct (scaler_transform s (X_test (self w2))) as [b | e4] eqn:Eb;
    [| discriminate].
  rewrite train_fit_run in *. cbv zeta in *.
  cbn in Hok |- *.
  destruct (model_fit (model (self w2)) (Some (Array a)) (y_train (self w2))
              (33 # 100) ep bs vb) as [[h | e5] m']; [| discriminate].
  exists s, a, b. cbn.
  repeat (split; [first [assumption | reflexivity] |]).
  apply calls_since_app. cbn. rewrite <- app_assoc. reflexivity.
Qed.

End TheScaler.

(** ** What the split leaves in the other attributes *)

Section AroundTheSplit.
Context {cell Model History Scaler : Type}.
Context {L : Libs cell Model History Scaler}.

Local Abbreviation Wld := (World cell Model History Scaler).
Local Abbreviation Stmt := (M cell Model History Scaler).

Ltac frame_after_split :=
  unfold train_resample, train_scale, train_fit,
    normalize_without_arguments;
  cbv beta iota;
  frame_steps; try (apply keras_fit_preserves; reflexivity).

Lemma stages_preserve_input_order scale tool resample ratio ep bs vb :
  preserves input_order
    (bind (train_resample resample ratio)
       (fun _ => bind (train_scale scale tool)
                   (fun _ => train_fit ep bs vb)) : Stmt unit).
Proof. frame_after_split. Qed.

Lemma stages_preserve_X scale tool resample ratio ep bs vb :
  preserves X
    (bind (train_resample resample ratio)
       (fun _ => bind (train_scale scale tool)
                   (fun _ => train_fit ep bs vb)) : Stmt unit).
Proof. frame_after_split. Qed.

Lemma scale_and_fit_preserve_X_report scale tool ep bs vb :
  preserves X_report
    (bind (train_scale scale tool) (fun _ => train_fit ep bs vb)
     : Stmt unit).
Proof. frame_after_split. Qed.

Lemma scale_and_fit_preserve_y_report scale tool ep bs vb :
  preserves y_report
    (bind (train_scale scale tool) (fun _ => train_fit ep bs vb)
     : Stmt unit).
Proof. frame_after_split. Qed.

(** Lines 68-69: when the resampling stage returns, the report copies are
    the values of the test part it found. *)
Lemma train_resample_reports resample ratio (w : Wld) :
  fst (train_resample resample ratio w) = Ok tt ->
  X_report (self (snd (train_resample resample ratio w)))
  = option_map np_array (X_test (self w)) /\
  y_report (self (snd (train_resample resample ratio w)))
  = option_map np_array1 (y_test (self w)).
Proof.
  unfold train_resample. run_monad.
  destruct resample; cbn; repeat (branch; cbn);
    intro H; try discriminate; split; reflexivity.
Qed.

Lemma mask_filter_map (A : Type) (f : A -> bool) (l : list A) :
  mask_filter (map f l) l = filter f l.
Proof.
  induction l as [| a l IH]; simpl.
  - reflexivity.
  - rewrite IH. reflexivity.
Qed.

(** The values of a series of targets are the outcome cells of the rows,
    one by one. *)
Lemma target_values (c : string) (D : DataFrame cell)
    (rs : list (Z * list cell)) (es : list (Z * cell)) :
  Forall2 (target_of c D) rs es ->
  Forall2 (target_value_of c D) rs (map snd es).
Proof.
  induction 1 as [| r e rs es [_ He] HF IH]; simpl; constructor.
  - exact He.
  - exact IH.
Qed.

(** X9.  When [train] on a bound, rectangular dataset [D] (two rows or
    more) whose outcome label [c] names exactly one column returns,
    [X_report] and [y_report] hold the values of the test part as split,
    row by row in the order of the split: [X_report] the cells of the test
    rows of [D] without the outcome column, without their labels and never
    scaled, also when [scale] is set and [X_test] holds the transformed
    array; [y_report] the outcome cell of each of the same rows, a vector
    with one value for each test row. *)
Theorem train_report_copies_are_the_unscaled_test_part :
  forall (w : Wld) (D : DataFrame cell) (c : string)
         (scale : bool) (tool : string) (resample : bool) (ratio : Q)
         (ep bs vb : Z),
    data (self w) = Some D ->
    outcome_pointer (self w) = Some c ->
    names_one_column c D = true ->
    rectangular D = true ->
    (2 <= nrows D)%nat ->
    fst (train scale tool resample ratio ep bs vb w) = Ok tt ->
    let i_test := ind_test (33 # 100) 101 (nrows D) in
    let test_rows := select i_test (rows D) in
    let o' := self (snd (train scale tool resample ratio ep bs vb w)) in
    X_report o'
    = Some (map (fun r => snd (features_of c D r)) test_rows) /\
    exists vs : vector cell,
      y_report o' = Some vs /\
      List.length vs = List.length i_test /\
      Forall2 (target_value_of c D) test_rows vs.
Proof.
  intros w D c scale tool resample ratio ep bs vb Hd Hp H1 HR Hn Hok.
  cbv zeta.
  pose proof (names_one_column_has_column c D H1) as Hc.
  destruct (train_split_ok w D c Hd Hp Hc Hn)
    as (Xf & ys & EX & Ey & HnX & HlX & Hrun).
  destruct (split_parts_of_rows D Xf ys c
              (ind_test (33 # 100) 101 (nrows D)) HR EX Ey) as [RX Ry].
  rewrite (train_from_split _ _ _ _ _ _ _ _ _ Hrun) in *.
  set (w1 := mkWorld (with_split Xf ys (self w)) (calls w) (stdout w)) in *.
  rewrite !preserves_after
    by (intro; first [apply scale_and_fit_preserve_X_report
                     | apply scale_and_fit_preserve_y_report]).
  assert (Hres : fst (train_resample resample ratio w1) = Ok tt).
  { unfold bind in Hok.
    destruct (train_resample resample ratio w1) as [[[] | e] w2];
      [reflexivity | discriminate]. }
  destruct (train_resample_reports resample ratio w1 Hres) as (-> & ->).
  cbn [rows take_rows] in RX. cbn [entries take_entries] in Ry.
  subst w1. cbn. rewrite HnX. split.
  - rewrite RX, map_map. reflexivity.
  - eexists. split; [reflexivity |]. split.
    + rewrite length_map, <- (Forall2_length Ry).
      apply select_length. intros k Hk.
      apply (ind_split_in_range (L := L) 101). apply in_or_app. now left.
    + now apply target_values.
Qed.

(** X10.  After [train] on a bound dataset [D] (two rows or more) with the
    outcome column [c], returned or raised, [input_order] holds the column
    labels of [D] without [c], in the order of [D], and [X] a frame with
    exactly these columns. *)
Theorem train_input_order_is_the_feature_columns :
  forall (w : Wld) (D : DataFrame cell) (c : string)
         (scale : bool) (tool : string) (resample : bool) (ratio : Q)
         (ep bs vb : Z),
    data (self w) = Some D ->
    outcome_pointer (self w) = Some c ->
    has_column c D = true ->
    (2 <= nrows D)%nat ->
    let o' := self (snd (train scale tool resample ratio ep bs vb w)) in
    let feature_columns :=
      filter (fun c' => negb (String.eqb c' c)) (columns D) in
    input_order o' = Some feature_columns /\
    ~ In c feature_columns /\
    exists Xf, X o' = Some Xf /\ columns Xf = feature_columns.
Proof.
  intros w D c scale tool resample ratio ep bs vb Hd Hp Hc Hn.
  cbv zeta.
  destruct (train_split_ok w D c Hd Hp Hc Hn)
    as (Xf & ys & EX & Ey & HnX & HlX & Hrun).
  rewrite (train_from_split _ _ _ _ _ _ _ _ _ Hrun).
  rewrite stages_preserve_input_order, stages_preserve_X. cbn.
  assert (Hcols : columns Xf
                  = filter (fun c' => negb (String.eqb c' c)) (columns D)).
  { unfold pandas_drop in EX. rewrite Hc in EX. injection EX as <-.
    cbn. apply mask_filter_map. }
  split; [now rewrite Hcols |]. split.
  - intro Hin. apply filter_In in Hin. destruct Hin as [_ Hneq].
    rewrite String.eqb_refl in Hneq. discriminate.
  - exists Xf. split; [reflexivity | exact Hcols].
Qed.

End AroundTheSplit.

Section PartSizes.
Context {cell Model History Scaler : Type}.
Context {L : Libs cell Model History Scaler}.

Local Abbreviation Wld := (World cell Model History Scaler).

Lemma n_test_of_at_most_half (n : nat) :
  (2 <= n)%nat ->
  (1 <= n_test_of (33 # 100) n <= n - n_test_of (33 # 100) n)%nat.
Proof. intro H. pose proof (n_test_of_bounds n). lia. Qed.

(** X11.  After [train] without resampling and scaling on a bound dataset
    [D] of two rows or more with the outcome column [c], [X_train] and
    [X_test] hold frames, the test frame has at least one row and the
    train frame at least as many rows as the test frame. *)
Theorem train_parts_are_not_empty :
  forall (w : Wld) (D : DataFrame cell) (c : string)
         (tool : string) (ratio : Q) (ep bs vb : Z),
    data (self w) = Some D ->
    outcome_pointer (self w) = Some c ->
    has_column c D = true ->
    (2 <= nrows D)%nat ->
    let o' := self (snd (train false tool false ratio ep bs vb w)) in
    exists Xtr Xte,
      X_train o' = Some (Frame Xtr) /\ X_test o' = Some (Frame Xte) /\
      (1 <= nrows Xte <= nrows Xtr)%nat.
Proof.
  intros w D c tool ratio ep bs vb Hd Hp Hc Hn. cbv zeta.
  destruct (train_split_ok w D c Hd Hp Hc Hn)
    as (Xf & ys & EX & Ey & HnX & HlX & Hrun).
  rewrite (train_from_split _ _ _ _ _ _ _ _ _ Hrun).
  rewrite stages_preserve_X_train, stages_preserve_X_test. cbn.
  eexists. eexists. split; [reflexivity |]. split; [reflexivity |].
  rewrite !take_rows_nrows.
  - rewrite ind_test_length, ind_train_length, HnX.
    now apply n_test_of_at_most_half.
  - intros k Hk. apply (ind_split_in_range (L := L) 101).
    apply in_or_app. now right.
  - intros k Hk. apply (ind_split_in_range (L := L) 101).
    apply in_or_app. now left.
Qed.

End PartSizes.

(** ** [calculate] after a run of [train] that raised *)

Section AfterFailedScaling.
Context {cell Model History Scaler : Type}.
Context {L : Libs cell Model History Scaler}.

Local Abbreviation Wld := (World cell Model History Scaler).

(** Line 167 with the flag set and no scaler stored. *)
Lemma calculate_flag_without_scaler (x : features cell) (h : bool) (w : Wld) :
  scaled_inputs (self w) = true ->
  scaling_tool (self w) = None ->
  calculate x h false w = (Raised AttributeError, w).
Proof.
  intros Hf Hs. unfold calculate. run_monad. rewrite Hf. cbn. rewrite Hs.
  reflexivity.
Qed.

(** X12.  After [train] with [scale] set and an unrecognised scaling tool
    has raised at line 79 on an orchestrator that held no scaler, the flag
    [scaled_inputs] is set with no scaler stored: every [calculate] without
    [override] raises [AttributeError] before the model is called and
    changes nothing, and with [override] the model is called on the input
    row as given. *)
Theorem calculate_after_failed_scaling_raises :
  forall (tool : string) (resample : bool) (ratio : Q) (ep bs vb : Z)
         (w : Wld) (x : features cell) (h : bool),
    scaling_tool (self w) = None ->
    tool <> "standard" -> tool <> "min max" -> tool <> "normalize" ->
    is_ok (fst (bind train_split
                  (fun _ => train_resample resample ratio) w)) = true ->
    let w' := snd (train true tool resample ratio ep bs vb w) in
    calculate x h false w' = (Raised AttributeError, w') /\
    calls_since w' (snd (calculate x h true w'))
    = [model_predict_call (model (self w)) [x]].
Proof.
  intros tool resample ratio ep bs vb w x h Hs H1 H2 H3 Hpre. cbv zeta.
  apply String.eqb_neq in H1, H2, H3.
  destruct (train_stops_at_scaling tool AttributeError resample ratio
              ep bs vb w)
    as (_ & Hst & Hm & _ & _ & _ & Hlast).
  { intros w2 Hw2. apply train_scale_unknown_tool; congruence. }
  destruct (Hlast Hpre) as (_ & Hflag).
  split.
  - apply calculate_flag_without_scaler; congruence.
  - erewrite calls_since_app by apply calculate_calls.
    rewrite Hflag, Hm. reflexivity.
Qed.

End AfterFailedScaling.

(** ** The plotting methods *)

Section PlottingProperties.
Context {cell Model History Scaler : Type}.
Context {R : RenderLibs cell Model History}.

Local Abbreviation Obj := (TrainingBase cell Model History Scaler).

(** X13.  [show_learning_curve] with the metric ['loss'] or ['accuracy']
    on an orchestrator whose [history] is still [None] opens the figure and
    then raises the [AttributeError] of [self.history.history]: nothing is
    drawn, saved or shown. *)
Theorem show_learning_curve_before_training_raises :
  forall (save : bool) (metric model_title : string) (o : Obj),
    history o = None ->
    metric = "loss" \/ metric = "accuracy" ->
    show_learning_curve save metric model_title o
    = (Raised AttributeError, [plt_figure_figsize 15 7]).
Proof.
  intros save metric title o Hh [-> | ->];
    unfold show_learning_curve; cbn; rewrite Hh; reflexivity.
Qed.

(** X14.  [show_learning_curve] with a metric that is neither ['loss'] nor
    ['accuracy'] never reads the history and draws no curve, and yet
    returns: the empty figure is labelled, saved when asked, and shown,
    also on an orchestrator that was never trained. *)
Theorem show_learning_curve_unknown_metric_draws_no_curve :
  forall (save : bool) (metric model_title : string) (o : Obj),
    metric <> "loss" -> metric <> "accuracy" ->
    show_learning_curve save metric model_title o
    = (Ok tt,
       [plt_figure_figsize 15 7; plt_xlabel "Iterations";
        plt_ylabel "Error";
        plt_title ("Learning Curve for " ++ model_title);
        plt_legend "upper right"]
       ++ (if save then [plt_savefig "learning_curve"] else [])
       ++ [plt_show]).
Proof.
  intros save metric title o H1 H2.
  apply String.eqb_neq in H1, H2.
  unfold show_learning_curve. rewrite H1, H2.
  destruct save; reflexivity.
Qed.

(** X15.  Whatever the arguments and the history: when
    [show_learning_curve] returns, its last pyplot call is the one [show],
    the image ['learning_curve'] was written right before it exactly when
    [save] is set, and nothing was written or shown earlier; when it
    raises, nothing was written or shown at all. *)
Theorem show_learning_curve_saves_then_shows :
  forall (save : bool) (metric model_title : string) (o : Obj),
    match show_learning_curve save metric model_title o with
    | (Ok _, cmds) =>
        exists drawn,
          cmds = drawn
                 ++ (if save then [plt_savefig "learning_curve"] else [])
                 ++ [plt_show] /\
          existsb is_output_cmd drawn = false
    | (Raised _, cmds) => existsb is_output_cmd cmds = false
    end.
Proof.
  intros save metric title o. unfold show_learning_curve.
  destruct save;
    (destruct (String.eqb metric "loss");
     [| destruct (String.eqb metric "accuracy")]);
    destruct (history o) as [hist |]; cbn; try reflexivity;
    repeat (branch; cbn; try reflexivity);
    lazymatch goal with
    | |- exists d, ?l = d ++ [_; _] /\ _ =>
        exists (removelast (removelast l))
    | |- exists d, ?l = d ++ [_] /\ _ => exists (removelast l)
    end; split; reflexivity.
Qed.

End PlottingProperties.

Section RocCurve.
Context {cell Model History Scaler : Type}.
Context {R : RenderLibs cell Model History}.

Local Abbreviation Obj := (TrainingBase cell Model History Scaler).

(** X16.  [show_roc_curve] scores before it plots: when the prediction of
    the model on the stored test features, [roc_curve] or [auc] raises, no
    pyplot call was made.  Otherwise the call evaluates to [None] (no area
    is returned); the ROC of the stored test part is plotted beside the
    diagonal and shown, then the image ['ROC'] is written exactly when
    [save] is set, after that first [show], and the figure is shown
    again. *)
Theorem show_roc_curve_scores_then_plots_and_returns_None :
  forall (save : bool) (o : Obj),
    match show_roc_curve save o with
    | (Raised _, cmds) => cmds = []
    | (Ok v, cmds) =>
        v = None /\
        exists scores fpr tpr thresholds area,
          model_predict_ravel (model o) (X_test o) = Ok scores /\
          roc_curve (y_test o) scores = Ok (fpr, tpr, thresholds) /\
          auc fpr tpr = Ok area /\
          cmds = [plt_figure_num 1;
                  plt_plot_points [0; 1]%Z [0; 1]%Z "k--";
                  plt_plot_xy fpr tpr (format_area area);
                  plt_xlabel "False positive rate";
                  plt_ylabel "True positive rate";
                  plt_title "ROC curve";
                  plt_legend "best";
                  plt_show]
                 ++ (if save then [plt_savefig "ROC"] else [])
                 ++ [plt_show]
    end.
Proof.
  intros save o. unfold show_roc_curve, plot_lift.
  destruct (model_predict_ravel (model o) (X_test o)) as [scores | e1]
    eqn:Es; cbn; [| reflexivity].
  destruct (roc_curve (y_test o) scores) as [[[fpr tpr] thr] | e2]
    eqn:Ec; cbn; [| reflexivity].
  destruct (auc fpr tpr) as [area | e3] eqn:Ea; cbn; [| reflexivity].
  destruct save; cbn;
    (split; [reflexivity |]);
    exists scores, fpr, tpr, thr, area;
    repeat (split; [first [reflexivity | assumption] |]); reflexivity.
Qed.

End RocCurve.

(** ** The further properties at work on the small instance *)

(** X1 on the freshly constructed orchestrator. *)
Lemma train_without_dataset_raises_and_changes_nothing_witness :
  data (self Toy.unconfigured) = None /\
  train true "standard" true 1 5 32 0 Toy.unconfigured
  = (Raised AttributeError, Toy.unconfigured).
Proof.
  assert (H1 : data (self Toy.unconfigured) = None) by reflexivity.
  split; [assumption |].
  exact (train_without_dataset_raises_and_changes_nothing
           true "standard" true 1 5 32 0 Toy.unconfigured H1).
Defined.

(** X2 on the patients with the outcome column ['dead']. *)
Lemma train_without_outcome_column_raises_KeyError_witness :
  data (self Toy.misconfigured) = Some Toy.patients /\
  outcome_pointer (self Toy.misconfigured) = Some "dead" /\
  has_column "dead" Toy.patients = false /\
  train false "standard" false 1 5 32 0 Toy.misconfigured
  = (Raised KeyError, Toy.misconfigured).
Proof.
  assert (H1 : data (self Toy.misconfigured) = Some Toy.patients)
    by reflexivity.
  assert (H2 : outcome_pointer (self Toy.misconfigured) = Some "dead")
    by reflexivity.
  assert (H3 : has_column "dead" Toy.patients = false) by reflexivity.
  repeat (split; [assumption |]).
  exact (train_without_outcome_column_raises_KeyError
           false "standard" false 1 5 32 0 Toy.misconfigured
           Toy.patients "dead" H1 H2 H3).
Defined.

(** X7 on the bound orchestrator, with scaling. *)
Lemma train_fits_the_model_on_the_stored_train_part_witness :
  fst (train true "min max" false 1 5 32 0 Toy.configured) = Ok tt /\
  (let w' := snd (train true "min max" false 1 5 32 0 Toy.configured) in
   exists cs h,
     calls_since Toy.configured w'
     = cs ++ [model_fit_call (model (self Toy.configured))
                (X_train (self w')) (y_train (self w')) (33 # 100) 5 32 0]
     /\
     existsb is_model_fit_call cs = false /\
     model_fit (model (self Toy.configured)) (X_train (self w'))
       (y_train (self w')) (33 # 100) 5 32 0
     = (Ok h, model (self w')) /\
     history (self w') = Some h).
Proof.
  assert (H1 : fst (train true "min max" false 1 5 32 0 Toy.configured)
               = Ok tt) by (vm_compute; reflexivity).
  split; [assumption |].
  exact (train_fits_the_model_on_the_stored_train_part
           true "min max" false 1 5 32 0 Toy.configured H1).
Defined.

(** X8 on the bound orchestrator with the standard scaler. *)
Lemma train_fits_the_scaler_on_the_train_part_only_witness :
  (("standard" = "standard" /\ Toy.mkScaler false None = StandardScaler) \/
   ("standard" = "min max" /\ Toy.mkScaler false None = MinMaxScaler)) /\
  bind train_split (fun _ => train_resample false 1) Toy.configured
  = (Ok tt, Toy.split_reported) /\
  fst (train true "standard" false 1 5 32 0 Toy.configured) = Ok tt /\
  (let w' := snd (train true "standard" false 1 5 32 0 Toy.configured) in
   exists s a b,
     scaler_fit (Toy.mkScaler false None) (X_train (self Toy.split_reported))
     = Ok s /\
     scaler_transform s (X_train (self Toy.split_reported)) = Ok a /\
     scaler_transform s (X_test (self Toy.split_reported)) = Ok b /\
     scaling_tool (self w') = Some s /\
     scaled_inputs (self w') = true /\
     X_train (self w') = Some (Array a) /\
     X_test (self w') = Some (Array b) /\
     y_train (self w') = y_train (self Toy.split_reported) /\
     y_test (self w') = y_test (self Toy.split_reported) /\
     calls_since Toy.split_reported w'
     = [scaler_fit_call (Toy.mkScaler false None)
          (X_train (self Toy.split_reported));
        scaler_transform_call s (X_train (self Toy.split_reported));
        scaler_transform_call s (X_test (self Toy.split_reported));
        model_fit_call (model (self Toy.split_reported)) (Some (Array a))
          (y_train (self Toy.split_reported)) (33 # 100) 5 32 0]).
Proof.
  assert (H1 : ("standard" = "standard"
                /\ Toy.mkScaler false None = StandardScaler) \/
               ("standard" = "min max"
                /\ Toy.mkScaler false None = MinMaxScaler))
    by (left; split; reflexivity).
  assert (H2 : bind train_split (fun _ => train_resample false 1)
                 Toy.configured
               = (Ok tt, Toy.split_reported))
    by (vm_compute; reflexivity).
  assert (H3 : fst (train true "standard" false 1 5 32 0 Toy.configured)
               = Ok tt) by (vm_compute; reflexivity).
  repeat (split; [assumption |]).
  exact (train_fits_the_scaler_on_the_train_part_only
           "standard" (Toy.mkScaler false None) false 1 5 32 0
           Toy.configured Toy.split_reported H1 H2 H3).
Defined.

(** X9 on the bound orchestrator, with scaling: the report copies are the
    raw test rows. *)
Lemma train_report_copies_are_the_unscaled_test_part_witness :
  data (self Toy.configured) = Some Toy.patients /\
  outcome_pointer (self Toy.configured) = Some "sick" /\
  names_one_column "sick" Toy.patients = true /\
  rectangular Toy.patients = true /\
  (2 <= nrows Toy.patients)%nat /\
  fst (train true "standard" false 1 5 32 0 Toy.configured) = Ok tt /\
  (let i_test := ind_test (33 # 100) 101 (nrows Toy.patients) in
   let test_rows := select i_test (rows Toy.patients) in
   let o' :=
     self (snd (train true "standard" false 1 5 32 0 Toy.configured)) in
   X_report o'
   = Some (map (fun r => snd (features_of "sick" Toy.patients r))
             test_rows) /\
   exists vs : vector Z,
     y_report o' = Some vs /\
     List.length vs = List.length i_test /\
     Forall2 (target_value_of "sick" Toy.patients) test_rows vs).
Proof.
  assert (H1 : data (self Toy.configured) = Some Toy.patients)
    by reflexivity.
  assert (H2 : outcome_pointer (self Toy.configured) = Some "sick")
    by reflexivity.
  assert (H3 : names_one_column "sick" Toy.patients = true) by reflexivity.
  assert (H4 : rectangular Toy.patients = true) by reflexivity.
  assert (H5 : (2 <= nrows Toy.patients)%nat) by (cbn; lia).
  assert (H6 : fst (train true "standard" false 1 5 32 0 Toy.configured)
               = Ok tt) by (vm_compute; reflexivity).
  repeat (split; [assumption |]).
  exact (train_report_copies_are_the_unscaled_test_part
           Toy.configured Toy.patients "sick" true "standard" false 1
           5 32 0 H1 H2 H3 H4 H5 H6).
Defined.

(** X10 on the bound orchestrator. *)
Lemma train_input_order_is_the_feature_columns_witness :
  data (self Toy.configured) = Some Toy.patients /\
  outcome_pointer (self Toy.configured) = Some "sick" /\
  has_column "sick" Toy.patients = true /\
  (2 <= nrows Toy.patients)%nat /\
  (let o' :=
     self (snd (train false "standard" false 1 5 32 0 Toy.configured)) in
   let feature_columns :=
     filter (fun c' => negb (String.eqb c' "sick"))
       (columns Toy.patients) in
   input_order o' = Some feature_columns /\
   ~ In "sick" feature_columns /\
   exists Xf, X o' = Some Xf /\ columns Xf = feature_columns).
Proof.
  assert (H1 : data (self Toy.configured) = Some Toy.patients)
    by reflexivity.
  assert (H2 : outcome_pointer (self Toy.configured) = Some "sick")
    by reflexivity.
  assert (H3 : has_column "sick" Toy.patients = true) by reflexivity.
  assert (H4 : (2 <= nrows Toy.patients)%nat) by (cbn; lia).
  repeat (split; [assumption |]).
  exact (train_input_order_is_the_feature_columns
           Toy.configured Toy.patients "sick" false "standard" false 1
           5 32 0 H1 H2 H3 H4).
Defined.

(** X11 on the bound orchestrator: two test rows, two train rows. *)
Lemma train_parts_are_not_empty_witness :
  data (self Toy.configured) = Some Toy.patients /\
  outcome_pointer (self Toy.configured) = Some "sick" /\
  has_column "sick" Toy.patients = true /\
  (2 <= nrows Toy.patients)%nat /\
  (let o' :=
     self (snd (train false "standard" false 1 5 32 0 Toy.configured)) in
   exists Xtr Xte,
     X_train o' = Some (Frame Xtr) /\ X_test o' = Some (Frame Xte) /\
     (1 <= nrows Xte <= nrows Xtr)%nat).
Proof.
  assert (H1 : data (self Toy.configured) = Some Toy.patients)
    by reflexivity.
  assert (H2 : outcome_pointer (self Toy.configured) = Some "sick")
    by reflexivity.
  assert (H3 : has_column "sick" Toy.patients = true) by reflexivity.
  assert (H4 : (2 <= nrows Toy.patients)%nat) by (cbn; lia).
  repeat (split; [assumption |]).
  exact (train_parts_are_not_empty
           Toy.configured Toy.patients "sick" "standard" 1 5 32 0
           H1 H2 H3 H4).
Defined.

(** X12 on the bound orchestrator after [train] with ['robust']. *)
Lemma calculate_after_failed_scaling_raises_witness :
  scaling_tool (self Toy.configured) = None /\
  "robust" <> "standard" /\ "robust" <> "min max" /\
  "robust" <> "normalize" /\
  is_ok (fst (bind train_split (fun _ => train_resample false 1)
                Toy.configured)) = true /\
  (let w' := snd (train true "robust" false 1 5 32 0 Toy.configured) in
   calculate (Array [[30; 2]]%Z) true false w'
   = (Raised AttributeError, w') /\
   calls_since w' (snd (calculate (Array [[30; 2]]%Z) true true w'))
   = [model_predict_call (model (self Toy.configured))
        [Array [[30; 2]]%Z]]).
Proof.
  assert (H0 : scaling_tool (self Toy.configured) = None) by reflexivity.
  assert (H1 : "robust" <> "standard") by discriminate.
  assert (H2 : "robust" <> "min max") by discriminate.
  assert (H3 : "robust" <> "normalize") by discriminate.
  assert (H4 : is_ok (fst (bind train_split
                             (fun _ => train_resample false 1)
                             Toy.configured)) = true)
    by (vm_compute; reflexivity).
  repeat (split; [assumption |]).
  exact (calculate_after_failed_scaling_raises
           "robust" false 1 5 32 0 Toy.configured (Array [[30; 2]]%Z)
           true H0 H1 H2 H3 H4).
Defined.

(** X13 on an object straight from [__init__]. *)
Lemma show_learning_curve_before_training_raises_witness :
  history (init (Scaler := Toy.scaler) (History := list Z) (cell := Z)
             0%nat) = None /\
  ("loss" = "loss" \/ "loss" = "accuracy") /\
  show_learning_curve true "loss" "toy"
    (init (Scaler := Toy.scaler) (History := list Z) (cell := Z) 0%nat)
  = (Raised AttributeError, [plt_figure_figsize 15 7]).
Proof.
  assert (H1 : history (init (Scaler := Toy.scaler) (History := list Z)
                          (cell := Z) 0%nat) = None) by reflexivity.
  assert (H2 : "loss" = "loss" \/ "loss" = "accuracy")
    by (left; reflexivity).
  repeat (split; [assumption |]).
  exact (show_learning_curve_before_training_raises
           true "loss" "toy" _ H1 H2).
Defined.

(** X14 on the trained orchestrator with the metric ['f1']. *)
Lemma show_learning_curve_unknown_metric_draws_no_curve_witness :
  "f1" <> "loss" /\ "f1" <> "accuracy" /\
  show_learning_curve true "f1" "toy" (self Toy.trained_unscaled)
  = (Ok tt,
     [plt_figure_figsize 15 7; plt_xlabel "Iterations";
      plt_ylabel "Error";
      plt_title ("Learning Curve for " ++ "toy");
      plt_legend "upper right"]
     ++ (if true then [plt_savefig "learning_curve"] else [])
     ++ [plt_show]).
Proof.
  assert (H1 : "f1" <> "loss") by discriminate.
  assert (H2 : "f1" <> "accuracy") by discriminate.
  repeat (split; [assumption |]).
  exact (show_learning_curve_unknown_metric_draws_no_curve
           true "f1" "toy" (self Toy.trained_unscaled) H1 H2).
Defined.
